(** * whisk: the [configure] command of whisk.py

    A shallow embedding of [configure] (whisk.py, lines 83-504): the merge of
    command-line arguments, cached selection and document defaults, the
    binding of the Yocto version, the layer sanity check and the files the
    command writes.

    Text is a Rocq [string], one character per code point below 256.
    What whisk.py only calls (argparse, the YAML loader, the schema
    validator, pathlib, tabulate) stays outside: [configure] starts from the
    parsed arguments and the validated document, paths go through the two
    operations of [Runtime], and a table is kept as its rows. *)

From Stdlib Require Import List String Ascii Bool ZArith Lia.
From Stdlib Require Import Permutation Sorted.
Import ListNotations.

Local Open Scope list_scope.
Local Open Scope string_scope.

(** ** Python values used by whisk.py *)

Module Py.

(** The newline and the double quote, which the templates of whisk.py use
    all over. *)
Definition nl : string := String "010"%char EmptyString.
Definition dq : string := String "034"%char EmptyString.

Definition quoted (s : string) : string := dq ++ s ++ dq.

(** [bool(s)] for a [str]. *)
Definition truthy (s : string) : bool :=
  match s with EmptyString => false | String _ _ => true end.

(** [bool(x)] for a value that is [None] or a [str]. *)
Definition truthy_opt (o : option string) : bool :=
  match o with None => false | Some s => truthy s end.

(** [d.get(k, default)] once [d.get(k)] is an [option]. *)
Definition get_or {A : Type} (o : option A) (default : A) : A :=
  match o with Some a => a | None => default end.

(** [c.isspace()] on code points below 256: TAB..CR, FS..US, space,
    NEL and NBSP. *)
Definition isspace (c : ascii) : bool :=
  let n := N_of_ascii c in
  ((9 <=? n) && (n <=? 13) || (28 <=? n) && (n <=? 32)
   || (n =? 133) || (n =? 160))%N.

(** [s.split()]: the maximal runs of non-space characters. [word] is the
    run read so far. *)
Fixpoint split_from (word : string) (s : string) : list string :=
  match s with
  | EmptyString => if truthy word then [word] else []
  | String c rest =>
      if isspace c
      then (if truthy word then word :: split_from EmptyString rest
            else split_from EmptyString rest)
      else split_from (word ++ String c EmptyString) rest
  end.

Definition split (s : string) : list string := split_from EmptyString s.

(** [sep.join(xs)]. *)
Definition join (sep : string) (xs : list string) : string :=
  String.concat sep xs.

(** [x in xs] for a list, a set or the keys of a dict. *)
Definition mem (x : string) (xs : list string) : bool :=
  existsb (String.eqb x) xs.

(** The distinct elements of [xs], each at its first occurrence: the
    members of [set(xs)]. *)
Fixpoint distinct (xs : list string) : list string :=
  match xs with
  | [] => []
  | x :: rest => x :: filter (fun y => negb (String.eqb x y)) (distinct rest)
  end.

(** [sorted(xs)] for strings: a stable sort by code points. *)
Fixpoint insert (x : string) (xs : list string) : list string :=
  match xs with
  | [] => [x]
  | y :: rest => if String.leb x y then x :: xs else y :: insert x rest
  end.

Fixpoint sorted (xs : list string) : list string :=
  match xs with
  | [] => []
  | x :: rest => insert x (sorted rest)
  end.

(** A [dict] with [str] keys, in insertion order. *)
Definition dict (V : Type) : Type := list (string * V).

Definition keys {V : Type} (d : dict V) : list string := map fst d.

(** [d.get(k)]; [d[k]] raises [KeyError] where this is [None]. *)
Fixpoint lookup {V : Type} (k : string) (d : dict V) : option V :=
  match d with
  | [] => None
  | (k', v) :: rest => if String.eqb k k' then Some v else lookup k rest
  end.

(** [d[k] = v]: a present key keeps its place, a new one goes last. *)
Fixpoint setitem {V : Type} (k : string) (v : V) (d : dict V) : dict V :=
  match d with
  | [] => [(k, v)]
  | (k', v') :: rest =>
      if String.eqb k k' then (k, v) :: rest else (k', v') :: setitem k v rest
  end.

End Py.

(** ** The configuration document, the cache and the arguments *)

(** An entry of [conf["modes"]] or of [conf["sites"]]. *)
Record option_entry : Type := {
  entry_description : option string;
  entry_conf : option string
}.

(** An entry of [conf["products"]]. *)
Record product : Type := {
  product_description : option string;
  default_version : string;
  product_layers : option (list string);
  targets : option (list string);
  product_multiconfigs : option (list string);
  product_conf : option string
}.

(** A layer collection of a version. *)
Record layer : Type := {
  layer_name : string;
  layer_paths : list string
}.

Record pyrex : Type := {
  pyrex_root : string;
  pyrex_conf : string
}.

(** An entry of [conf["versions"]]. *)
Record version : Type := {
  version_description : option string;
  version_layers : option (list layer);
  bitbakedir : option string;
  version_pyrex : option pyrex;
  oeinit : string
}.

Record defaults : Type := {
  defaults_mode : option string;
  defaults_products : option (list string);
  defaults_site : option string;
  defaults_build_dir : option string
}.

Record hooks : Type := {
  pre_init : option string;
  post_init : option string
}.

Record core : Type := {
  core_layers : option (list string);
  core_conf : option string
}.

(** Modelled from the spec: whisk.schema.json, which [jsonschema.validate]
    checks the document against before [configure] reads it, is not among
    the sources. The shape of a validated document follows section 3 of the
    specification (ConfigDocument): the four catalogs are present, the other
    keys are optional; the fields are those whisk.py reads. *)
Record config : Type := {
  modes : Py.dict option_entry;
  sites : Py.dict option_entry;
  products : Py.dict product;
  versions : Py.dict version;
  conf_defaults : option defaults;
  conf_hooks : option hooks;
  conf_core : option core;
  conf_cache : option string
}.

Definition CACHE_VERSION : Z := 1.

(** The mapping [configure] dumps into the cache file, and reads back. *)
Record cache_doc : Type := {
  cache_version : option Z;
  cache_mode : option string;
  cache_products : option (list string);
  cache_site : option string;
  cached_version : option string;
  cache_actual_version : option string;
  cache_build_dir : option string
}.

(** What opening and loading the cache file gives: [OSError], text that is
    not YAML (then [yaml.load] raises its own error), a YAML value without
    [get] (an empty file loads as [None]), or a mapping, with the keys and
    the types of values [configure] dumps. *)
Inductive cache_file : Type :=
| Unreadable
| NotYAML
| NotAMapping
| Mapping (c : cache_doc).

(** [parser.parse_args(sys_args.user_args)]. *)
Record user_args : Type := {
  arg_products : list string;
  arg_mode : option string;
  arg_site : option string;
  arg_version : option string;
  arg_build_dir : option string;
  arg_list : bool;
  arg_write : bool;
  arg_no_config : bool;
  arg_quiet : bool
}.

(** The arguments of the [configure] subcommand. *)
Record sys_args : Type := {
  root : string;
  init : bool;
  env : string;
  args : user_args
}.

(** What a run starts from: the arguments, the validated document and the
    state of the cache file. *)
Record input : Type := {
  sys : sys_args;
  conf : config;
  cache_on_disk : cache_file
}.

(** What surrounds a run: the directory of whisk.py, pathlib's
    [Path(p).absolute()] and [Path(p) / q] on path strings, and the order in
    which this process iterates over a [set] of strings. The members are
    given at their first insertion; the order is any permutation of them. *)
Record Runtime : Type := {
  THIS_DIR : string;
  absolute : string -> string;
  joinpath : string -> string -> string;
  set_iter : list string -> list string;
  set_iter_perm : forall xs, Permutation (set_iter xs) xs
}.

(** ** What a run does *)

Inductive exn : Type :=
| KeyError (key : option string)
| YAMLError.

(** [configure] returns an exit code or lets an exception escape. *)
Inductive outcome : Type :=
| Return (code : Z)
| Raise (e : exn).

(** The status of the process: [sys.exit(main())] exits with the code
    returned; an uncaught exception ends the interpreter with status 1. *)
Definition exit_status (o : outcome) : Z :=
  match o with
  | Return code => code
  | Raise _ => 1
  end.

(** Standard output: a printed line, or a table handed to tabulate. *)
Inductive printed : Type :=
| Line (s : string)
| Table (rows : list (string * string * string)).

(** The files and directories a run creates, in the order it does. *)
Inductive artifact : Type :=
| EnvFile (path : string) (content : string)
| CacheFile (path : string) (content : cache_doc)
| MkDir (path : string)
| BuildFile (path : string) (content : string).

Record result : Type := {
  status : outcome;
  stdout : list printed;
  written : list artifact
}.

(** The course of [configure] up to some line: it goes on with a value, it
    has printed its error and returns 1, or an exception escapes. *)
Inductive step (A : Type) : Type :=
| Go (a : A)
| Stop (messages : list printed)
| Escape (e : exn).

Arguments Go {A} a.
Arguments Stop {A} messages.
Arguments Escape {A} e.

Definition and_then {A B : Type} (m : step A) (k : A -> step B) : step B :=
  match m with
  | Go a => k a
  | Stop messages => Stop messages
  | Escape e => Escape e
  end.

Declare Scope step_scope.
Delimit Scope step_scope with step.
Notation "x <- m ;; k" := (and_then m (fun x => k))
  (at level 61, m at next level, right associativity) : step_scope.

(** [d[k]]. *)
Definition getitem {V : Type} (d : Py.dict V) (k : string) : step V :=
  match Py.lookup k d with
  | Some v => Go v
  | None => Escape (KeyError (Some k))
  end.

(** The text written to an open file so far, and whether the block under
    [with ... open("w") as f] ran to its end or an exception left it. *)
Definition writing (A : Type) : Type := (string * (exn + A))%type.

Definition wrote {A : Type} (w : writing A) : string := fst w.

Definition done {A : Type} (a : A) : writing A := (EmptyString, inr a).

(** [f.write(s)]. *)
Definition f_write (s : string) : writing unit := (s, inr tt).

Definition then_write {A B : Type} (m : writing A) (k : A -> writing B)
  : writing B :=
  match m with
  | (s, inl e) => (s, inl e)
  | (s, inr a) => let (s', r) := k a in (s ++ s', r)
  end.

Declare Scope writing_scope.
Delimit Scope writing_scope with writing.
Notation "x <- m ;; k" := (then_write m (fun x => k))
  (at level 61, m at next level, right associativity) : writing_scope.
Notation "m ;; k" := (then_write m (fun _ => k))
  (at level 61, right associativity) : writing_scope.

(** [d[k]] inside such a block, for a key that is [None] or a [str]. *)
Definition w_getitem {V : Type} (d : Py.dict V) (k : option string)
  : writing V :=
  match k with
  | Some key =>
      match Py.lookup key d with
      | Some v => done v
      | None => (EmptyString, inl (KeyError k))
      end
  | None => (EmptyString, inl (KeyError None))
  end.

(** [for x in xs: body(x)] inside such a block. *)
Fixpoint w_for {A : Type} (xs : list A) (body : A -> writing unit)
  : writing unit :=
  match xs with
  | [] => done tt
  | x :: rest => then_write (body x) (fun _ => w_for rest body)
  end.

(** ** whisk.py, lines 40-80 *)

Section Printing.

Context {V : Type} (description : V -> option string).

Definition get_current (is_current : string -> bool) (i : string) : string :=
  if is_current i then " *" else "  ".

Definition print_items (items : Py.dict V) (is_current : string -> bool)
    (extra : list string) : printed :=
  Table
    ((map (fun i =>
            (get_current is_current i, i,
             match Py.lookup i items with
             | Some v => Py.get_or (description v) EmptyString
             | None => EmptyString
             end))
         (Py.sorted (Py.keys items))
     ++ map (fun e => (get_current is_current e, e, EmptyString)) extra)%list).

End Printing.

(** [m == cur] where [cur] may be [None]. *)
Definition is_opt (cur : option string) (m : string) : bool :=
  match cur with
  | Some c => String.eqb m c
  | None => false
  end.

Definition print_modes (cf : config) (cur_mode : option string) : printed :=
  print_items entry_description (modes cf) (is_opt cur_mode) [].

Definition print_sites (cf : config) (cur_site : option string) : printed :=
  print_items entry_description (sites cf) (is_opt cur_site) [].

Definition print_products (cf : config) (cur_products : list string)
  : printed :=
  print_items product_description (products cf)
    (fun p => Py.mem p cur_products) [].

Definition print_versions (cf : config) (cur_version : string) : printed :=
  print_items version_description (versions cf)
    (fun v => String.eqb v cur_version) ["default"].

Definition write_hook (cf : config) (hook : hooks -> option string)
  : writing unit :=
  (f_write (Py.get_or (match conf_hooks cf with
                       | Some h => hook h
                       | None => None
                       end) EmptyString) ;;
   f_write Py.nl)%writing.

(** ** whisk.py, lines 133-163: the cache and the starting selection *)

(** [get_product(name).get("layers", [])], with the [KeyError] of
    [conf["products"][name]]. *)
Definition get_product_layers (cf : config) (name : string)
  : option (list string) :=
  if String.eqb name "core"
  then Some (Py.get_or (match conf_core cf with
                        | Some c => core_layers c
                        | None => None
                        end) [])
  else match Py.lookup name (products cf) with
       | Some p => Some (Py.get_or (product_layers p) [])
       | None => None
       end.

Definition cache_path (rt : Runtime) (i : input) : string :=
  Py.get_or (conf_cache (conf i)) (joinpath rt (root (sys i)) ".config.yaml").

(** The empty dict. *)
Definition no_cache : cache_doc :=
  {| cache_version := None; cache_mode := None; cache_products := None;
     cache_site := None; cached_version := None;
     cache_actual_version := None; cache_build_dir := None |}.

(** Lines 141-146: the cache file is opened and loaded unless --no-config
    is given. Of what can go wrong only [OSError] is caught: the error of
    [yaml.load] on a file that is not YAML leaves [configure]. *)
Definition read_cache (i : input) : step unit :=
  if arg_no_config (args (sys i)) then Go tt
  else match cache_on_disk i with
       | NotYAML => Escape YAMLError
       | _ => Go tt
       end.

(** Lines 140-152, where line 144 does not raise: the cache is read unless
    --no-config is given, and kept when it is a mapping whose
    [cache_version] is [CACHE_VERSION]. When line 144 raises there is no
    cache at all: [read_cache] ends the run before this is used. *)
Definition load_cache (i : input) : cache_doc :=
  if arg_no_config (args (sys i)) then no_cache
  else match cache_on_disk i with
       | Unreadable => no_cache
       | NotYAML => no_cache
       | NotAMapping => no_cache
       | Mapping c =>
           match cache_version c with
           | Some n => if Z.eqb n CACHE_VERSION then c else no_cache
           | None => no_cache
           end
       end.

(** The variables [configure] carries from line 156 on. *)
Record selection : Type := {
  write : bool;
  cur_products : list string;
  cur_mode : option string;
  cur_site : option string;
  cur_version : string;
  cur_actual_version : option string;
  build_dir : string
}.

(** [defaults.get(key)], where [defaults = conf.get("defaults", {})]. *)
Definition defaults_get {A : Type} (cf : config) (key : defaults -> option A)
  : option A :=
  match conf_defaults cf with
  | Some d => key d
  | None => None
  end.

(** [cache.get(key, fallback)] with a fallback that may be [None]. *)
Definition or_else {A : Type} (o fallback : option A) : option A :=
  match o with
  | Some a => Some a
  | None => fallback
  end.

(** Lines 154-163. *)
Definition start (i : input) : selection :=
  let cache := load_cache i in
  let cf := conf i in
  {| write := arg_write (args (sys i)) || init (sys i);
     cur_mode := or_else (cache_mode cache) (defaults_get cf defaults_mode);
     cur_products :=
       Py.get_or (cache_products cache)
                 (Py.get_or (defaults_get cf defaults_products) []);
     cur_site := or_else (cache_site cache) (defaults_get cf defaults_site);
     cur_version := Py.get_or (cached_version cache) "default";
     cur_actual_version :=
       Some (Py.get_or (cache_actual_version cache) EmptyString);
     build_dir :=
       Py.get_or (cache_build_dir cache)
                 (Py.get_or (defaults_get cf defaults_build_dir) "build") |}.

(** Lines 165-173: what --list prints. *)
Definition list_options (cf : config) (s : selection) : list printed :=
  [ Line "Possible products:"; print_products cf (cur_products s);
    Line "Possible modes:"; print_modes cf (cur_mode s);
    Line "Possible sites:"; print_sites cf (cur_site s);
    Line "Possible versions:"; print_versions cf (cur_version s) ].

(** ** whisk.py, lines 176-242: the arguments against the document *)

(** Lines 178-180: the words of all --products values, chained, made a
    [set] and [sorted]. *)
Definition user_products (rt : Runtime) (flags : list string) : list string :=
  Py.sorted (set_iter rt (Py.distinct (flat_map Py.split flags))).

(** Lines 181-185: the first requested product the document lacks. *)
Definition unknown_product (cf : config) (requested : list string)
  : option string :=
  find (fun p => negb (Py.mem p (Py.keys (products cf)))) requested.

Definition with_products (s : selection) (ps : list string) : selection :=
  {| write := true; cur_products := ps; cur_mode := cur_mode s;
     cur_site := cur_site s; cur_version := cur_version s;
     cur_actual_version := cur_actual_version s; build_dir := build_dir s |}.

Definition with_mode (s : selection) (m : string) : selection :=
  {| write := true; cur_products := cur_products s; cur_mode := Some m;
     cur_site := cur_site s; cur_version := cur_version s;
     cur_actual_version := cur_actual_version s; build_dir := build_dir s |}.

Definition with_site (s : selection) (m : string) : selection :=
  {| write := true; cur_products := cur_products s; cur_mode := cur_mode s;
     cur_site := Some m; cur_version := cur_version s;
     cur_actual_version := cur_actual_version s; build_dir := build_dir s |}.

Definition with_version (s : selection) (v : string) : selection :=
  {| write := true; cur_products := cur_products s; cur_mode := cur_mode s;
     cur_site := cur_site s; cur_version := v;
     cur_actual_version := cur_actual_version s; build_dir := build_dir s |}.

Definition with_write (s : selection) : selection :=
  with_version s (cur_version s).

Definition with_build_dir (s : selection) (d : string) : selection :=
  {| write := write s; cur_products := cur_products s; cur_mode := cur_mode s;
     cur_site := cur_site s; cur_version := cur_version s;
     cur_actual_version := cur_actual_version s; build_dir := d |}.

(** Lines 176-186. *)
Definition take_products (rt : Runtime) (i : input) (s : selection)
  : step selection :=
  match arg_products (args (sys i)) with
  | [] => Go s
  | flags =>
      let requested := user_products rt flags in
      match unknown_product (conf i) requested with
      | Some p =>
          Stop [ Line ("Unknown product '" ++ p ++ "'. Please choose from:");
                 print_products (conf i) (cur_products s) ]
      | None => Go (with_products s requested)
      end
  end.

(** Lines 188-194. *)
Definition take_mode (i : input) (s : selection) : step selection :=
  match arg_mode (args (sys i)) with
  | Some m =>
      if Py.truthy m then
        if Py.mem m (Py.keys (modes (conf i))) then Go (with_mode s m)
        else Stop [ Line ("Unknown mode '" ++ m ++ "'. Please choose from:");
                    print_modes (conf i) (cur_mode s) ]
      else Go s
  | None => Go s
  end.

(** Lines 196-202. *)
Definition take_site (i : input) (s : selection) : step selection :=
  match arg_site (args (sys i)) with
  | Some m =>
      if Py.truthy m then
        if Py.mem m (Py.keys (sites (conf i))) then Go (with_site s m)
        else Stop [ Line ("Unknown site '" ++ m ++ "'. Please choose from:");
                    print_sites (conf i) (cur_site s) ]
      else Go s
  | None => Go s
  end.

Definition version_immutable (v : string) : printed :=
  Line ("The version cannot be changed after the environment is initialized. Please initialize a new environment with '--version="
        ++ v ++ "'").

(** Lines 204-221. *)
Definition take_version (i : input) (s : selection) : step selection :=
  match arg_version (args (sys i)) with
  | Some v =>
      if Py.truthy v then
        if init (sys i) then
          if negb (String.eqb v "default")
             && negb (Py.mem v (Py.keys (versions (conf i))))
          then Stop [ Line ("Unknown version '" ++ v
                            ++ "'. Please choose from:");
                      print_versions (conf i) (cur_version s) ]
          else Go (with_version s v)
        else if negb (String.eqb v (cur_version s))
             then Stop [ version_immutable v ]
             else Go (with_write s)
      else Go s
  | None => Go s
  end.

(** Lines 223-230. *)
Definition take_build_dir (i : input) (s : selection) : step selection :=
  match arg_build_dir (args (sys i)) with
  | Some d =>
      if Py.truthy d then
        if negb (init (sys i))
        then Stop [ Line ("Build directory cannot be changed after environment is initialized. Please initialize a new environment with '--build-dir="
                          ++ d ++ "'") ]
        else Go (with_build_dir s d)
      else Go s
  | None => Go s
  end.

(** Lines 232-242. *)
Definition require_selection (s : selection) : step selection :=
  match cur_products s with
  | [] => Stop [ Line "One or more products must be specified with --product" ]
  | _ :: _ =>
      if negb (Py.truthy_opt (cur_mode s))
      then Stop [ Line "A build mode must be specified with --mode" ]
      else if negb (Py.truthy_opt (cur_site s))
           then Stop [ Line "A site must be specified with --site" ]
           else Go s
  end.

(** Lines 176-242, which come after the cache has been read. *)
Definition resolve (rt : Runtime) (i : input) : step selection :=
  (_ <- read_cache i ;;
   s <- take_products rt i (start i) ;;
   s <- take_mode i s ;;
   s <- take_site i s ;;
   s <- take_version i s ;;
   s <- take_build_dir i s ;;
   require_selection s)%step.

(** ** whisk.py, lines 244-278: the version and its layers *)

Definition incompatible (p v actual : string) : printed :=
  Line (p ++ " is incompatible with other products: " ++ v ++ " != "
        ++ actual).

(** Lines 249-259: the loop over [cur_products], started with
    [cur_actual_version = actual]. *)
Fixpoint default_versions (cf : config) (actual : option string)
    (ps : list string) : step (option string) :=
  match ps with
  | [] => Go actual
  | p :: rest =>
      and_then (getitem (products cf) p) (fun pr =>
        let v := default_version pr in
        match actual with
        | None => default_versions cf (Some v) rest
        | Some a =>
            if negb (String.eqb v a) then Stop [ incompatible p v a ]
            else default_versions cf actual rest
        end)
  end.

(** Lines 245-261: [cur_actual_version] after the binding. *)
Definition actual_version (i : input) (s : selection) : step (option string) :=
  let before := if init (sys i) then None else cur_actual_version s in
  if String.eqb (cur_version s) "default"
  then default_versions (conf i) before (cur_products s)
  else Go (Some (cur_version s)).

(** Lines 245-263: the name of the bound version and its entry. *)
Definition bind_version (i : input) (s : selection)
  : step (string * version) :=
  (a <- actual_version i s ;;
   match a with
   | Some name => (v <- getitem (versions (conf i)) name ;; Go (name, v))
   | None => Escape (KeyError None)
   end)%step.

Definition layers_of (v : version) : list layer :=
  Py.get_or (version_layers v) [].

(** Line 265: the dict comprehension from collection name to paths. *)
Definition cur_layers (v : version) : Py.dict (list string) :=
  fold_left (fun d l => Py.setitem (layer_name l) (layer_paths l) d)
            (layers_of v) [].

(** Lines 269-271: the members of the set [missing]. *)
Definition missing (cl : Py.dict (list string)) (wanted : list string)
  : list string :=
  Py.distinct (filter (fun l => negb (Py.mem l (Py.keys cl))) wanted).

Definition missing_layers (rt : Runtime) (p : string) (members : list string)
    (actual : string) : printed :=
  Line ("Product '" ++ p ++ "' requires layer collection(s) '"
        ++ Py.join " " (set_iter rt members)
        ++ "' which is not present in version '" ++ actual ++ "'").

(** Lines 268-278, over the namespaces [names]. *)
Fixpoint check_layers (rt : Runtime) (cf : config) (actual : string)
    (cl : Py.dict (list string)) (names : list string) : step unit :=
  match names with
  | [] => Go tt
  | p :: rest =>
      match get_product_layers cf p with
      | None => Escape (KeyError (Some p))
      | Some wanted =>
          match missing cl wanted with
          | [] => check_layers rt cf actual cl rest
          | members => Stop [ missing_layers rt p members actual ]
          end
      end
  end.

(** The namespaces of a selection: line 268 and line 463. *)
Definition namespaces (s : selection) : list string :=
  "core" :: cur_products s.

(** ** whisk.py, lines 280-355: the environment file and the cache *)

(** [str(x)] for a value that is [None] or a [str]. *)
Definition str_opt (o : option string) : string :=
  Py.get_or o "None".

(** Lines 305-334: what an initialization adds. *)
Definition bootstrap (rt : Runtime) (i : input) (v : version) : writing unit :=
  ((if Py.truthy_opt (bitbakedir v)
    then f_write ("export BITBAKEDIR=" ++ Py.quoted (str_opt (bitbakedir v))
                  ++ Py.nl)
    else done tt) ;;
   f_write ("export BB_ENV_EXTRAWHITE="
            ++ Py.quoted "${BB_ENV_EXTRAWHITE} WHISK_PROJECT_ROOT WHISK_PRODUCTS WHISK_MODE WHISK_SITE WHISK_ACTUAL_VERSION"
            ++ Py.nl) ;;
   match version_pyrex v with
   | Some px =>
       f_write ("PYREX_CONFIG_BIND=" ++ Py.quoted (absolute rt (root (sys i)))
                ++ Py.nl
                ++ "PYREX_ROOT=" ++ Py.quoted (pyrex_root px) ++ Py.nl
                ++ "PYREX_OEINIT=" ++ Py.quoted (oeinit v) ++ Py.nl
                ++ "PYREXCONFFILE=" ++ Py.quoted (pyrex_conf px) ++ Py.nl
                ++ Py.nl
                ++ ". " ++ pyrex_root px
                ++ "/pyrex-init-build-env $WHISK_BUILD_DIR" ++ Py.nl)
   | None => f_write (". " ++ oeinit v ++ " $WHISK_BUILD_DIR" ++ Py.nl)
   end)%writing.

(** Lines 280-338. *)
Definition env_file (rt : Runtime) (i : input) (s : selection)
    (actual : string) (v : version) : writing unit :=
  (f_write
     ("export WHISK_PRODUCTS=" ++ Py.quoted (Py.join " " (cur_products s))
      ++ Py.nl
      ++ "export WHISK_MODE=" ++ Py.quoted (str_opt (cur_mode s)) ++ Py.nl
      ++ "export WHISK_SITE=" ++ Py.quoted (str_opt (cur_site s)) ++ Py.nl
      ++ "export WHISK_VERSION=" ++ Py.quoted (cur_version s) ++ Py.nl
      ++ "export WHISK_ACTUAL_VERSION=" ++ Py.quoted actual ++ Py.nl
      ++ Py.nl
      ++ "export WHISK_BUILD_DIR=" ++ absolute rt (build_dir s) ++ Py.nl
      ++ "export WHISK_INIT=" ++ (if init (sys i) then "true" else "false")
      ++ Py.nl) ;;
   write_hook (conf i) pre_init ;;
   (if init (sys i) then bootstrap rt i v else done tt) ;;
   write_hook (conf i) post_init ;;
   f_write ("unset WHISK_BUILD_DIR WHISK_INIT" ++ Py.nl))%writing.

(** Lines 344-352: the mapping dumped into the cache file. *)
Definition new_cache (rt : Runtime) (s : selection) (actual : string)
  : cache_doc :=
  {| cache_version := Some CACHE_VERSION;
     cache_mode := cur_mode s;
     cache_products := Some (cur_products s);
     cache_site := cur_site s;
     cached_version := Some (cur_version s);
     cache_actual_version := Some actual;
     cache_build_dir := Some (absolute rt (build_dir s)) |}.

(** ** whisk.py, lines 357-489: the files of the build directory *)

Definition generated_by_whisk : string :=
  "# This file was dynamically generated by whisk" ++ Py.nl.

(** Lines 368-387: the fixed block of site.conf. *)
Definition site_conf_paths : string :=
  Py.nl
  ++ "WHISK_PRODUCT ?= " ++ Py.quoted "core" ++ Py.nl
  ++ Py.nl
  ++ "# Set TMPDIR to a version specific location" ++ Py.nl
  ++ "TMPDIR_BASE ?= "
  ++ Py.quoted "${TOPDIR}/tmp/${WHISK_MODE}/${WHISK_ACTUAL_VERSION}" ++ Py.nl
  ++ "DEPLOY_DIR_BASE ?= "
  ++ Py.quoted "${TOPDIR}/deploy/${WHISK_MODE}/${WHISK_ACTUAL_VERSION}"
  ++ Py.nl
  ++ Py.nl
  ++ "TMPDIR = " ++ Py.quoted "${TMPDIR_BASE}/${WHISK_PRODUCT}" ++ Py.nl
  ++ Py.nl
  ++ "# Set the deploy directory to output to a well-known location" ++ Py.nl
  ++ "DEPLOY_DIR = " ++ Py.quoted "${DEPLOY_DIR_${WHISK_PRODUCT}}" ++ Py.nl
  ++ "DEPLOY_DIR_IMAGE = " ++ Py.quoted "${DEPLOY_DIR}/images" ++ Py.nl
  ++ Py.nl
  ++ "DEPLOY_DIR_core = " ++ Py.quoted "${DEPLOY_DIR_BASE}/core" ++ Py.nl.

(** Lines 388-391. *)
Definition targets_core (ps : list string) : string :=
  "WHISK_TARGETS_core = "
  ++ Py.quoted (Py.join " " (map (fun p => "${WHISK_TARGETS_" ++ p ++ "}") ps))
  ++ Py.nl.

(** Lines 394-406, for one key [p] of [conf["products"]]. *)
Definition product_vars (cf : config) (p : string) : string :=
  "DEPLOY_DIR_" ++ p ++ " = " ++ Py.quoted ("${DEPLOY_DIR_BASE}/" ++ p)
  ++ Py.nl
  ++ "WHISK_TARGETS_" ++ p ++ " = "
  ++ Py.quoted
       (Py.join " "
          (Py.sorted
             (match Py.lookup p (products cf) with
              | Some pr => Py.get_or (targets pr) []
              | None => []
              end)))
  ++ Py.nl.

(** Lines 411-412: what the loop adds to the set [multiconfigs]. *)
Fixpoint declared_multiconfigs (cf : config) (ps : list string)
  : writing (list string) :=
  match ps with
  | [] => done []
  | p :: rest =>
      then_write (w_getitem (products cf) (Some p)) (fun pr =>
        then_write (declared_multiconfigs cf rest) (fun more =>
          done (Py.get_or (product_multiconfigs pr) [] ++ more)%list))
  end.

(** Lines 410-412 and 422: [sorted(multiconfigs)], where the set holds
    product-p for every active product p and what the loop added. *)
Definition multiconfigs (rt : Runtime) (s : selection)
    (declared : list string) : list string :=
  Py.sorted
    (set_iter rt
       (Py.distinct
          (map (fun p => "product-" ++ p)%string (cur_products s)
           ++ declared)%list)).

(** Lines 414-423. *)
Definition multiconfig_vars (mcs : list string) : string :=
  "BBMULTICONFIG = " ++ Py.quoted (Py.join " " mcs) ++ Py.nl
  ++ "BBMASK += " ++ Py.quoted "${BBMASK_${WHISK_PRODUCT}}" ++ Py.nl
  ++ Py.nl
  ++ "BB_HASHBASE_WHITELIST_append = " ++ Py.quoted " WHISK_PROJECT_ROOT"
  ++ Py.nl.

(** Lines 360-426: site.conf. *)
Definition site_conf (rt : Runtime) (cf : config) (s : selection)
  : writing unit :=
  (f_write generated_by_whisk ;;
   site <- w_getitem (sites cf) (cur_site s) ;;
   f_write (Py.get_or (entry_conf site) EmptyString) ;;
   f_write Py.nl ;;
   mode <- w_getitem (modes cf) (cur_mode s) ;;
   f_write (Py.get_or (entry_conf mode) EmptyString) ;;
   f_write Py.nl ;;
   f_write site_conf_paths ;;
   f_write (targets_core (cur_products s)) ;;
   w_for (Py.sorted (Py.keys (products cf)))
         (fun p => f_write (product_vars cf p)) ;;
   f_write Py.nl ;;
   declared <- declared_multiconfigs cf (cur_products s) ;;
   f_write (multiconfig_vars (multiconfigs rt s declared)) ;;
   f_write
     (Py.get_or (match conf_core cf with
                 | Some c => core_conf c
                 | None => None
                 end) EmptyString) ;;
   f_write Py.nl)%writing.

(** Lines 428-447: the file of one declared product. *)
Definition product_file (name : string) (p : product) : string :=
  generated_by_whisk
  ++ "WHISK_PRODUCT = " ++ Py.quoted name ++ Py.nl
  ++ "WHISK_PRODUCT_DESCRIPTION = "
  ++ Py.quoted (Py.get_or (product_description p) EmptyString) ++ Py.nl
  ++ Py.nl
  ++ Py.get_or (product_conf p) EmptyString
  ++ Py.nl.

Definition multiconfig_dir (rt : Runtime) (s : selection) : string :=
  joinpath rt (joinpath rt (build_dir s) "conf") "multiconfig".

Definition product_path (rt : Runtime) (s : selection) (name : string)
  : string :=
  joinpath rt (multiconfig_dir rt s) ("product-" ++ name ++ ".conf").

Definition product_files (rt : Runtime) (cf : config) (s : selection)
  : list artifact :=
  map (fun np => BuildFile (product_path rt s (fst np))
                           (product_file (fst np) (snd np)))
      (products cf).

(** Line 470: one mask directive. *)
Definition bbmask (name p : string) : string :=
  "BBMASK_" ++ name ++ " += " ++ Py.quoted p ++ Py.nl.

(** Line 476: one inclusion directive. *)
Definition bblayers (p : string) : string :=
  "BBLAYERS += " ++ Py.quoted p ++ Py.nl.

(** Lines 467-470: the mask directives of the namespace [name], which asks
    for the collections [product_layers]. *)
Definition mask_directives (cl : Py.dict (list string)) (name : string)
    (product_layers : list string) : list string :=
  flat_map (fun lp =>
              if negb (Py.mem (fst lp) product_layers)
              then map (bbmask name) (snd lp)
              else [])
           cl.

(** Lines 463-471: the masks of all namespaces; the value is what
    [requested_layers] has been updated with. *)
Fixpoint write_masks (cf : config) (cl : Py.dict (list string))
    (names : list string) : writing (list string) :=
  match names with
  | [] => done []
  | name :: rest =>
      match get_product_layers cf name with
      | None => (EmptyString, inl (KeyError (Some name)))
      | Some product_layers =>
          then_write
            (w_for (mask_directives cl name product_layers) f_write)
            (fun _ =>
               then_write (f_write Py.nl) (fun _ =>
                 then_write (write_masks cf cl rest) (fun requested =>
                   done (product_layers ++ requested)%list)))
      end
  end.

(** Lines 473-476: the inclusion directives. *)
Definition include_directives (layers : list layer)
    (requested_layers : list string) : list string :=
  flat_map (fun l =>
              if Py.mem (layer_name l) requested_layers
              then map bblayers (layer_paths l)
              else [])
           layers.

(** Lines 450-459. *)
Definition bblayers_head : string :=
  generated_by_whisk
  ++ "BBPATH = " ++ Py.quoted "${TOPDIR}" ++ Py.nl
  ++ "BBFILES ?= " ++ Py.quoted EmptyString ++ Py.nl
  ++ Py.nl.

(** Line 478: the layer that comes with whisk. *)
Definition meta_whisk (rt : Runtime) : string :=
  "BBLAYERS += " ++ Py.quoted (THIS_DIR rt ++ "/meta-whisk") ++ Py.nl ++ Py.nl.

(** Lines 482-489. *)
Definition devtool_layers : string :=
  "# This line gives devtool a place to add its layers" ++ Py.nl
  ++ "BBLAYERS += " ++ Py.quoted EmptyString ++ Py.nl.

(** Lines 449-489: bblayers.conf. *)
Definition bblayers_conf (rt : Runtime) (cf : config) (s : selection)
    (v : version) : writing unit :=
  (f_write bblayers_head ;;
   requested_layers <- write_masks cf (cur_layers v) (namespaces s) ;;
   w_for (include_directives (layers_of v) requested_layers) f_write ;;
   f_write (meta_whisk rt) ;;
   f_write Py.nl ;;
   f_write devtool_layers)%writing.

(** ** whisk.py, lines 83-504: [configure] *)

(** The artifacts created so far, and the exception that stopped the run,
    if one did. *)
Definition emitted : Type := (list artifact * option exn)%type.

(** A [with path.open("w") as f] block: the file holds what was written
    when the block is left, also by an exception. *)
Definition to_file (mk : string -> artifact) (w : writing unit) : emitted :=
  ([mk (wrote w)],
   match snd w with
   | inl e => Some e
   | inr _ => None
   end).

Definition and_emit (a b : emitted) : emitted :=
  match a with
  | (xs, Some e) => (xs, Some e)
  | (xs, None) => ((xs ++ fst b)%list, snd b)
  end.

(** [build_dir / "conf" / name]. *)
Definition conf_path (rt : Runtime) (s : selection) (name : string) : string :=
  joinpath rt (joinpath rt (build_dir s) "conf") name.

(** Lines 357-489. *)
Definition build_files (rt : Runtime) (cf : config) (s : selection)
    (v : version) : emitted :=
  and_emit ([MkDir (multiconfig_dir rt s)], None)
    (and_emit
       (to_file (BuildFile (conf_path rt s "site.conf")) (site_conf rt cf s))
       (and_emit (product_files rt cf s, None)
          (to_file (BuildFile (conf_path rt s "bblayers.conf"))
                   (bblayers_conf rt cf s v)))).

(** Lines 494-502. *)
Definition summary (s : selection) (actual : string) : list printed :=
  [ Line ("PRODUCT    = " ++ Py.join " " (cur_products s));
    Line ("MODE       = " ++ str_opt (cur_mode s));
    Line ("SITE       = " ++ str_opt (cur_site s));
    Line ("VERSION    = " ++ cur_version s
          ++ (if negb (String.eqb (cur_version s) actual)
              then " (" ++ actual ++ ")"
              else EmptyString)) ].

(** Lines 280-504: what a run writes and prints once its selection, its
    version and its layers have been checked. *)
Definition emit (rt : Runtime) (i : input) (s : selection) (actual : string)
    (v : version) : result :=
  let files :=
    and_emit (to_file (EnvFile (env (sys i))) (env_file rt i s actual v))
      (and_emit
         (if arg_no_config (args (sys i)) then []
          else [CacheFile (cache_path rt i) (new_cache rt s actual)],
          None)
         (if write s then build_files rt (conf i) s v else ([], None))) in
  match snd files with
  | Some e => {| status := Raise e; stdout := []; written := fst files |}
  | None =>
      {| status := Return 0;
         stdout :=
           if write s && negb (init (sys i)) then []
           else if arg_quiet (args (sys i)) then []
                else summary s actual;
         written := fst files |}
  end.

(** Lines 176-278: the checks that come before any file is opened for
    writing. *)
Definition checked (rt : Runtime) (i : input)
  : step (selection * (string * version)) :=
  (s <- resolve rt i ;;
   b <- bind_version i s ;;
   _ <- check_layers rt (conf i) (fst b) (cur_layers (snd b)) (namespaces s) ;;
   Go (s, b))%step.

(** The cache is read before anything else (lines 140-146): in a run with
    --list right here, in the other runs as the first step of [resolve]. *)
Definition configure (rt : Runtime) (i : input) : result :=
  if arg_list (args (sys i))
  then match read_cache i with
       | Go _ =>
           {| status := Return 0;
              stdout := list_options (conf i) (start i);
              written := [] |}
       | Stop messages =>
           {| status := Return 1; stdout := messages; written := [] |}
       | Escape e => {| status := Raise e; stdout := []; written := [] |}
       end
  else match checked rt i with
       | Go (s, (actual, v)) => emit rt i s actual v
       | Stop messages =>
           {| status := Return 1; stdout := messages; written := [] |}
       | Escape e => {| status := Raise e; stdout := []; written := [] |}
       end.

(** ** Notions the statements below use *)

(** The order of [sorted] on strings, and its strict part. *)
Definition str_le (a b : string) : Prop := String.leb a b = true.
Definition str_lt (a b : string) : Prop := String.ltb a b = true.

(** [name] is a key of the dict [d]. *)
Definition declared {V : Type} (d : Py.dict V) (name : string) : Prop :=
  In name (Py.keys d).

(** What the steps of lines 176-202 and 223-230 leave alone. *)
Record unchanged_by_args (s s' : selection) : Prop := {
  same_version_after : cur_version s' = cur_version s;
  same_actual_after : cur_actual_version s' = cur_actual_version s
}.

(** The cache file can be loaded, or is not looked at: line 144 does not
    raise. *)
Definition cache_loads (i : input) : Prop :=
  arg_no_config (args (sys i)) = true \/ cache_on_disk i <> NotYAML.

(** The arguments --products, --mode and --site of a run are accepted: lines
    176-202 go through without an error. *)
Definition accepted_before_version (rt : Runtime) (i : input) : Prop :=
  unknown_product (conf i) (user_products rt (arg_products (args (sys i))))
  = None
  /\ (forall m, arg_mode (args (sys i)) = Some m -> Py.truthy m = true ->
                declared (modes (conf i)) m)
  /\ (forall m, arg_site (args (sys i)) = Some m -> Py.truthy m = true ->
                declared (sites (conf i)) m).

(** The same run without --version and with --write. *)
Definition write_instead_of_version (i : input) : input :=
  {| sys :=
       {| root := root (sys i); init := init (sys i); env := env (sys i);
          args :=
            {| arg_products := arg_products (args (sys i));
               arg_mode := arg_mode (args (sys i));
               arg_site := arg_site (args (sys i));
               arg_version := None;
               arg_build_dir := arg_build_dir (args (sys i));
               arg_list := arg_list (args (sys i));
               arg_write := true;
               arg_no_config := arg_no_config (args (sys i));
               arg_quiet := arg_quiet (args (sys i)) |} |};
     conf := conf i;
     cache_on_disk := cache_on_disk i |}.

(** A --products, --mode, --site or --version argument names something the
    document does not have; "default" is a version the document need not
    have. An empty --mode, --site or --version counts as not given
    (lines 188, 196 and 204). *)
Definition unknown_requested (i : input) : Prop :=
  (exists a p, In a (arg_products (args (sys i))) /\ In p (Py.split a)
               /\ ~ declared (products (conf i)) p)
  \/ (exists m, arg_mode (args (sys i)) = Some m /\ Py.truthy m = true
                /\ ~ declared (modes (conf i)) m)
  \/ (exists m, arg_site (args (sys i)) = Some m /\ Py.truthy m = true
                /\ ~ declared (sites (conf i)) m)
  \/ (exists v, arg_version (args (sys i)) = Some v /\ Py.truthy v = true
                /\ v <> "default" /\ ~ declared (versions (conf i)) v).

(** The collections a declared namespace asks for. *)
Definition namespace_layers (cf : config) (name : string) : list string :=
  Py.get_or (get_product_layers cf name) [].

(** Lines 461-465: what [requested_layers] holds after the loop over
    [names]. *)
Definition requested_layers (cf : config) (names : list string)
  : list string :=
  flat_map (namespace_layers cf) names.


(** The same surroundings, with sets iterated in insertion order. *)
Definition insertion_order (rt : Runtime) : Runtime :=
  {| THIS_DIR := THIS_DIR rt;
     absolute := absolute rt;
     joinpath := joinpath rt;
     set_iter := fun xs => xs;
     set_iter_perm := fun xs => Permutation_refl xs |}.

(** The cache file is not there or cannot be read, does not hold a mapping
    with the [cache_version] of this whisk, or --no-config is given. *)
Definition cache_ignored (i : input) : Prop :=
  arg_no_config (args (sys i)) = true
  \/ cache_on_disk i = Unreadable
  \/ cache_on_disk i = NotAMapping
  \/ (exists c, cache_on_disk i = Mapping c
                /\ cache_version c <> Some CACHE_VERSION).

(** [products[p]["default_version"]], where [p] is declared. *)
Definition default_version_of (cf : config) (p : string) : option string :=
  option_map default_version (Py.lookup p (products cf)).

(** ** Sample runs *)

Module Sample.

(** [Path(p).absolute()] in the directory /work: an absolute path is left
    as it is. *)
Definition in_work (p : string) : string :=
  match p with
  | String "/"%char _ => p
  | _ => "/work/" ++ p
  end.

(** A runtime that iterates a set in insertion order, and one that
    iterates it backwards. *)
Definition forwards : Runtime :=
  {| THIS_DIR := "/opt/whisk";
     absolute := in_work;
     joinpath := fun a b => a ++ "/" ++ b;
     set_iter := fun xs => xs;
     set_iter_perm := fun xs => Permutation_refl xs |}.

Definition backwards : Runtime :=
  {| THIS_DIR := "/opt/whisk";
     absolute := in_work;
     joinpath := fun a b => a ++ "/" ++ b;
     set_iter := fun xs => rev xs;
     set_iter_perm := fun xs => Permutation_sym (Permutation_rev xs) |}.

Definition entry (text : string) : option_entry :=
  {| entry_description := None; entry_conf := Some text |}.

(** A product that asks for the collections [layers] and defaults to the
    version [v]. *)
Definition a_product (v : string) (layers : list string) : product :=
  {| product_description := Some "a product";
     default_version := v;
     product_layers := Some layers;
     targets := Some ["image"];
     product_multiconfigs := None;
     product_conf := Some "MACHINE = qemu" |}.

Definition a_version (layers : list layer) : version :=
  {| version_description := None;
     version_layers := Some layers;
     bitbakedir := None;
     version_pyrex := None;
     oeinit := "poky/oe-init-build-env" |}.

Definition L1 : layer := {| layer_name := "L1"; layer_paths := ["/a"] |}.
Definition L2 : layer := {| layer_name := "L2"; layer_paths := ["/b"] |}.
Definition L3 : layer := {| layer_name := "L3"; layer_paths := ["/c"; "/d"] |}.

(** Products [a] and [b] default to version [v1], product [c] to [v2]. *)
Definition doc : config :=
  {| modes := [("debug", entry "DEBUG = 1")];
     sites := [("home", entry "SITE = home")];
     products := [("b", a_product "v1" ["L2"]);
                  ("a", a_product "v1" ["L1"]);
                  ("c", a_product "v2" ["L1"])];
     versions := [("v1", a_version [L1; L2; L3]);
                  ("v2", a_version [L1])];
     conf_defaults := None;
     conf_hooks := None;
     conf_core := None;
     conf_cache := None |}.

(** The arguments --products, --mode, --site, --version, --list and
    --no-config; the others are left out. *)
Definition arguments (ps : list string) (mode site v : option string)
    (list no_config : bool) : user_args :=
  {| arg_products := ps; arg_mode := mode; arg_site := site;
     arg_version := v; arg_build_dir := None; arg_list := list;
     arg_write := false; arg_no_config := no_config; arg_quiet := false |}.

(** The cache an initialization with product [a], mode [debug] and site
    [home] leaves behind. *)
Definition cached : cache_doc :=
  {| cache_version := Some 1%Z;
     cache_mode := Some "debug";
     cache_products := Some ["a"];
     cache_site := Some "home";
     cached_version := Some "default";
     cache_actual_version := Some "v1";
     cache_build_dir := Some "/work/build" |}.

Definition run (initialize : bool) (a : user_args) (c : cache_file)
  : input :=
  {| sys := {| root := "/proj"; init := initialize; env := "/proj/env";
               args := a |};
     conf := doc;
     cache_on_disk := c |}.

(** A later run asks for "b a" while the cache holds product [a]. *)
Definition ask_b_a : input :=
  run false (arguments ["b a"] None None None false false) (Mapping cached).

(** A later run asks for the catalogs and for another version. *)
Definition list_other_version : input :=
  run false (arguments [] None None (Some "v2") true false) (Mapping cached).

(** A later run asks for another version. *)
Definition other_version : input :=
  run false (arguments [] None None (Some "v2") false false)
      (Mapping cached).

(** A later run asks for product [c], which defaults to version [v2],
    while the cache holds the actual version [v1]. *)
Definition ask_c : input :=
  run false (arguments ["c"] None None None false false) (Mapping cached).

(** An initialization with products [a] and [b]. *)
Definition init_a_b : input :=
  run true (arguments ["a b"] (Some "debug") (Some "home") None false false)
      Unreadable.


Definition ask_bogus : input :=
  run false (arguments ["bogus"] None None None false false) (Mapping cached).

(** Products [d] and [e] ask for collections version [v1] does not have. *)
Definition lacking : config :=
  {| modes := modes doc;
     sites := sites doc;
     products := [("d", a_product "v1" ["L8"; "L1"; "L9"]);
                  ("e", a_product "v1" ["L7"])];
     versions := versions doc;
     conf_defaults := None;
     conf_hooks := None;
     conf_core := None;
     conf_cache := None |}.

Definition init_d_e : input :=
  {| sys := {| root := "/proj"; init := true; env := "/proj/env";
               args := arguments ["d e"] (Some "debug") (Some "home") None
                                 false false |};
     conf := lacking;
     cache_on_disk := Unreadable |}.

(** A later run with --no-config that names product [a], mode and site. *)
Definition later_no_config : input :=
  run false (arguments ["a"] (Some "debug") (Some "home") None false true)
      (Mapping cached).

(** A later run repeats the version [v0] of its cache, which the document
    does not declare any more. *)
Definition repeat_stale_version : input :=
  run false (arguments [] None None (Some "v0") false false)
      (Mapping {| cache_version := Some 1%Z;
                  cache_mode := Some "debug";
                  cache_products := Some ["a"];
                  cache_site := Some "home";
                  cached_version := Some "v0";
                  cache_actual_version := Some "v0";
                  cache_build_dir := Some "/work/build" |}).

(** A run that asks for the catalogs while the cache file holds text that
    is not YAML, as a write that was cut short leaves it. *)
Definition list_broken_cache : input :=
  run false (arguments [] None None None true false) NotYAML.

(** A run that asks for the catalogs. *)
Definition list_only : input :=
  run false (arguments [] None None None true false) (Mapping cached).

End Sample.


(** ** Notions for the rest of [configure] *)

(** Lines 163, 177, 189, 197 and 205: the value of [write] once the
    arguments have been gone through. *)
Definition asks_to_write (i : input) : bool :=
  arg_write (args (sys i)) || init (sys i)
  || match arg_products (args (sys i)) with [] => false | _ :: _ => true end
  || Py.truthy_opt (arg_mode (args (sys i)))
  || Py.truthy_opt (arg_site (args (sys i)))
  || Py.truthy_opt (arg_version (args (sys i))).

(** A later run on the same document, without any argument, that finds the
    mapping [c] in the cache file. *)
Definition later_run (i : input) (c : cache_doc) : input :=
  {| sys :=
       {| root := root (sys i); init := false; env := env (sys i);
          args :=
            {| arg_products := []; arg_mode := None; arg_site := None;
               arg_version := None; arg_build_dir := None; arg_list := false;
               arg_write := false; arg_no_config := false;
               arg_quiet := false |} |};
     conf := conf i;
     cache_on_disk := Mapping c |}.

(** The same run with another state of the cache file. *)
Definition with_cache_on_disk (i : input) (c : cache_file) : input :=
  {| sys := sys i; conf := conf i; cache_on_disk := c |}.

(** A word: not empty, and without a space character. *)
Definition word (w : string) : Prop :=
  w <> EmptyString
  /\ forall c, In c (list_ascii_of_string w) -> Py.isspace c = false.

(** The paths of the last collection called [name] among [layers]. *)
Definition last_declared (name : string) (layers : list layer)
  : option (list string) :=
  option_map layer_paths
    (find (fun l => String.eqb (layer_name l) name) (rev layers)).

(** Lines 176-221: the steps that come before --build-dir is looked at. *)
Definition before_build_dir (rt : Runtime) (i : input) : step selection :=
  (_ <- read_cache i ;;
   s <- take_products rt i (start i) ;;
   s <- take_mode i s ;;
   s <- take_site i s ;;
   take_version i s)%step.

(** The cache file is among the artifacts. *)
Definition is_cache_file (a : artifact) : bool :=
  match a with
  | CacheFile _ _ => true
  | _ => false
  end.

Module More.

(** The cache names the site [office], which the document does not have. *)
Definition stale_site : cache_doc :=
  {| cache_version := Some 1%Z;
     cache_mode := Some "debug";
     cache_products := Some ["a"];
     cache_site := Some "office";
     cached_version := Some "default";
     cache_actual_version := Some "v1";
     cache_build_dir := Some "/work/build" |}.

(** A later run with --write. *)
Definition rewrite (c : cache_doc) : input :=
  {| sys := {| root := "/proj"; init := false; env := "/proj/env";
               args :=
                 {| arg_products := []; arg_mode := None; arg_site := None;
                    arg_version := None; arg_build_dir := None;
                    arg_list := false; arg_write := true;
                    arg_no_config := false; arg_quiet := false |} |};
     conf := Sample.doc;
     cache_on_disk := Mapping c |}.

(** A later run without arguments. *)
Definition plain (c : cache_file) : input :=
  Sample.run false (Sample.arguments [] None None None false false) c.

(** A later run with --build-dir. *)
Definition move_build_dir : input :=
  {| sys := {| root := "/proj"; init := false; env := "/proj/env";
               args :=
                 {| arg_products := []; arg_mode := None; arg_site := None;
                    arg_version := None; arg_build_dir := Some "elsewhere";
                    arg_list := false; arg_write := false;
                    arg_no_config := false; arg_quiet := false |} |};
     conf := Sample.doc;
     cache_on_disk := Mapping Sample.cached |}.

(** An initialization with --version v2 and product [c]. *)
Definition init_v2 : input :=
  Sample.run true
    (Sample.arguments ["c"] (Some "debug") (Some "home") (Some "v2") false
                      false)
    Unreadable.

(** A version that declares the collection L1 twice. *)
Definition twice : version :=
  Sample.a_version
    [ {| layer_name := "L1"; layer_paths := ["/old"] |};
      Sample.L2;
      {| layer_name := "L1"; layer_paths := ["/new"] |} ].

End More.

(** [conf["products"][p].get("multiconfigs", [])], for a declared [p]. *)
Definition multiconfigs_of (cf : config) (p : string) : list string :=
  match Py.lookup p (products cf) with
  | Some pr => Py.get_or (product_multiconfigs pr) []
  | None => []
  end.

Definition build_dir_immutable (d : string) : printed :=
  Line ("Build directory cannot be changed after environment is initialized. Please initialize a new environment with '--build-dir="
        ++ d ++ "'").

(** The three columns of a row of a catalog. *)
Definition row_mark (row : string * string * string) : string :=
  fst (fst row).
Definition row_name (row : string * string * string) : string :=
  snd (fst row).
Definition row_description (row : string * string * string) : string :=
  snd row.

(** Lines 176-230: the selection once all the arguments are taken. *)
Definition selected (rt : Runtime) (i : input) : step selection :=
  and_then (before_build_dir rt i) (take_build_dir i).

Module Blank.

(** A later run whose --products value holds spaces only. *)
Definition products : input :=
  Sample.run false (Sample.arguments ["  "] None None None false false)
             (Mapping Sample.cached).

(** A first run without arguments: no cache, and no defaults in the
    document. *)
Definition first_run : input :=
  Sample.run true (Sample.arguments [] None None None false false) Unreadable.

(** A later run without arguments whose cache names the product [gone],
    which the document does not declare. *)
Definition stale_product : input :=
  Sample.run false (Sample.arguments [] None None None false false)
    (Mapping {| cache_version := Some 1%Z;
                cache_mode := Some "debug";
                cache_products := Some ["gone"];
                cache_site := Some "home";
                cached_version := Some "default";
                cache_actual_version := Some "v1";
                cache_build_dir := Some "/work/build" |}).

End Blank.

(** ** Facts about the Python values *)

Module PyFacts.

Lemma mem_In (x : string) (xs : list string) :
  Py.mem x xs = true <-> In x xs.
Proof.
  unfold Py.mem. rewrite existsb_exists. split.
  - intros [y [Hin Heq]]. apply String.eqb_eq in Heq. now subst.
  - intros Hin. exists x. split; [assumption | apply String.eqb_refl].
Qed.

Lemma mem_false (x : string) (xs : list string) :
  Py.mem x xs = false <-> ~ In x xs.
Proof.
  rewrite <- mem_In. destruct (Py.mem x xs); split; congruence.
Qed.

Lemma lookup_None {V : Type} (k : string) (d : Py.dict V) :
  Py.lookup k d = None <-> ~ In k (Py.keys d).
Proof.
  induction d as [|[k' v] d IH]; simpl.
  - tauto.
  - destruct (String.eqb_spec k k') as [->|Hne].
    + split; [discriminate | intros H; exfalso; apply H; now left].
    + rewrite IH. split; [intros H [E|I]; congruence | tauto].
Qed.

(** *** The order of [sorted] *)

Lemma leb_trans (a b c : string) :
  str_le a b -> str_le b c -> str_le a c.
Proof.
  unfold str_le, String.leb. revert b c.
  induction a as [|x a IH]; intros [|y b] [|z c]; simpl;
    try discriminate; try reflexivity.
  unfold Ascii.compare.
  destruct (N.compare_spec (N_of_ascii x) (N_of_ascii y)) as [Exy|Lxy|Gxy];
    destruct (N.compare_spec (N_of_ascii y) (N_of_ascii z)) as [Eyz|Lyz|Gyz];
    destruct (N.compare_spec (N_of_ascii x) (N_of_ascii z)) as [Exz|Lxz|Gxz];
    try discriminate; try reflexivity; try lia; intros H1 H2.
  apply (IH b c); assumption.
Qed.

Lemma le_not_eq_lt (a b : string) : str_le a b -> a <> b -> str_lt a b.
Proof.
  unfold str_le, str_lt, String.leb, String.ltb.
  destruct (String.compare a b) eqn:E; try discriminate; auto.
  apply String.compare_eq_iff in E. congruence.
Qed.

Lemma insert_perm (x : string) (xs : list string) :
  Permutation (Py.insert x xs) (x :: xs).
Proof.
  induction xs as [|y xs IH]; simpl.
  - reflexivity.
  - destruct (String.leb x y).
    + reflexivity.
    + rewrite IH. apply perm_swap.
Qed.

Lemma sorted_perm (xs : list string) : Permutation (Py.sorted xs) xs.
Proof.
  induction xs as [|x xs IH]; simpl.
  - reflexivity.
  - rewrite insert_perm. now constructor.
Qed.

Lemma insert_sorted (x : string) (xs : list string) :
  StronglySorted str_le xs -> StronglySorted str_le (Py.insert x xs).
Proof.
  induction 1 as [|y xs Hs IH Hall]; simpl.
  - constructor; constructor.
  - destruct (String.leb x y) eqn:E.
    + constructor.
      * now constructor.
      * constructor; [exact E|].
        eapply Forall_impl; [|exact Hall].
        intros z Hz. eapply leb_trans; eassumption.
    + constructor; [exact IH|].
      apply (Permutation_Forall (Permutation_sym (insert_perm x xs))).
      constructor; [|exact Hall].
      destruct (String.leb_total x y) as [H|H]; [congruence | exact H].
Qed.

Lemma sorted_sorted (xs : list string) : StronglySorted str_le (Py.sorted xs).
Proof.
  induction xs as [|x xs IH]; simpl.
  - constructor.
  - now apply insert_sorted.
Qed.

(** A list of strings has one sorted arrangement. *)
Lemma sorted_unique (xs ys : list string) :
  StronglySorted str_le xs -> StronglySorted str_le ys ->
  Permutation xs ys -> xs = ys.
Proof.
  intros Hx; revert ys.
  induction Hx as [|a xs Hs IH Ha]; intros ys Hy Hp.
  - apply Permutation_nil in Hp. now subst.
  - destruct Hy as [|b ys Hys Hb].
    + apply Permutation_sym, Permutation_nil in Hp. discriminate.
    + assert (a = b) as ->.
      { assert (In a (b :: ys)) as Hin
          by (eapply Permutation_in; [exact Hp | now left]).
        assert (In b (a :: xs)) as Hin'
          by (eapply Permutation_in;
              [apply Permutation_sym; exact Hp | now left]).
        destruct Hin as [E|Hin]; [now subst|].
        destruct Hin' as [E|Hin']; [now subst|].
        rewrite Forall_forall in Ha, Hb.
        apply String.leb_antisym; [apply Ha | apply Hb]; assumption. }
      f_equal. apply IH; [assumption|].
      eapply Permutation_cons_inv; exact Hp.
Qed.

(** [sorted] does not see the order of what it is given: the order in
    which a set is iterated is gone once the set is sorted. *)
Lemma sorted_of_perm (xs ys : list string) :
  Permutation xs ys -> Py.sorted xs = Py.sorted ys.
Proof.
  intros Hp. apply sorted_unique; try apply sorted_sorted.
  rewrite !sorted_perm. exact Hp.
Qed.

Lemma sorted_set_iter (rt : Runtime) (xs : list string) :
  Py.sorted (set_iter rt xs) = Py.sorted xs.
Proof. apply sorted_of_perm, set_iter_perm. Qed.

(** *** The members of a set *)

Lemma distinct_In (x : string) (xs : list string) :
  In x (Py.distinct xs) <-> In x xs.
Proof.
  induction xs as [|y xs IH]; simpl; [tauto|].
  rewrite filter_In, IH.
  destruct (String.eqb_spec y x) as [->|Hne]; simpl.
  - split; [intros [E|[_ E]]; [now left | discriminate] | now left].
  - split; [intros [E|[I _]]; tauto | intros [E|I]; tauto].
Qed.

Lemma distinct_NoDup (xs : list string) : NoDup (Py.distinct xs).
Proof.
  induction xs as [|y xs IH]; simpl; constructor.
  - rewrite filter_In. intros [_ H]. now rewrite String.eqb_refl in H.
  - now apply NoDup_filter.
Qed.

(** Sorted and without repetition is strictly increasing. *)
Lemma sorted_strict (xs : list string) :
  NoDup xs -> StronglySorted str_le xs -> StronglySorted str_lt xs.
Proof.
  intros Hnd Hs. induction Hs as [|a xs Hs IH Ha]; constructor.
  - apply IH. now inversion Hnd.
  - inversion Hnd as [|? ? Hnotin Hnd']; subst.
    rewrite Forall_forall in *. intros b Hb.
    apply le_not_eq_lt; [now apply Ha | congruence].
Qed.

End PyFacts.

(** ** The steps of [resolve] *)

Lemma and_then_Go {A B : Type} (m : step A) (k : A -> step B) (b : B) :
  and_then m k = Go b -> exists a, m = Go a /\ k a = Go b.
Proof. destruct m; simpl; try discriminate. intros H. eauto. Qed.

(** Takes a step of [resolve] apart: the argument it reads and the tests it
    makes. *)
Ltac step_cases H :=
  repeat match type of H with
         | context [match ?x with _ => _ end] => destruct x eqn:?
         end;
  try discriminate H; try (injection H as <-).

Lemma take_products_Go (rt : Runtime) (i : input) (s s' : selection) :
  take_products rt i s = Go s' ->
  unchanged_by_args s s'
  /\ (arg_products (args (sys i)) <> [] ->
      cur_products s' = user_products rt (arg_products (args (sys i)))).
Proof.
  unfold take_products. intros H. step_cases H; simpl.
  - split; [now split | congruence].
  - split; [now split | reflexivity].
Qed.

Lemma take_mode_Go (i : input) (s s' : selection) :
  take_mode i s = Go s' ->
  unchanged_by_args s s' /\ cur_products s' = cur_products s.
Proof.
  unfold take_mode. intros H. step_cases H; simpl; split; now try split.
Qed.

Lemma take_site_Go (i : input) (s s' : selection) :
  take_site i s = Go s' ->
  unchanged_by_args s s' /\ cur_products s' = cur_products s.
Proof.
  unfold take_site. intros H. step_cases H; simpl; split; now try split.
Qed.

Lemma take_version_Go (i : input) (s s' : selection) :
  take_version i s = Go s' ->
  cur_actual_version s' = cur_actual_version s
  /\ cur_products s' = cur_products s
  /\ (init (sys i) = false -> cur_version s' = cur_version s).
Proof.
  unfold take_version. intros H. step_cases H; simpl; repeat split;
    congruence.
Qed.

Lemma take_build_dir_Go (i : input) (s s' : selection) :
  take_build_dir i s = Go s' ->
  unchanged_by_args s s' /\ cur_products s' = cur_products s.
Proof.
  unfold take_build_dir. intros H. step_cases H; simpl; split; now try split.
Qed.

Lemma require_selection_Go (s s' : selection) :
  require_selection s = Go s' ->
  s' = s /\ cur_products s <> []
  /\ Py.truthy_opt (cur_mode s) = true /\ Py.truthy_opt (cur_site s) = true.
Proof.
  unfold require_selection. intros H. step_cases H.
  repeat split; try congruence.
  - now destruct (Py.truthy_opt (cur_mode s)).
  - now destruct (Py.truthy_opt (cur_site s)).
Qed.

(** A run that gets through lines 176-242 went through each of its steps. *)
Lemma resolve_Go (rt : Runtime) (i : input) (s : selection) :
  resolve rt i = Go s ->
  exists s1 s2 s3 s4,
    take_products rt i (start i) = Go s1 /\ take_mode i s1 = Go s2
    /\ take_site i s2 = Go s3 /\ take_version i s3 = Go s4
    /\ take_build_dir i s4 = Go s /\ require_selection s = Go s.
Proof.
  unfold resolve. intros H.
  apply and_then_Go in H as (u & _ & H).
  apply and_then_Go in H as (s1 & H1 & H).
  apply and_then_Go in H as (s2 & H2 & H).
  apply and_then_Go in H as (s3 & H3 & H).
  apply and_then_Go in H as (s4 & H4 & H).
  apply and_then_Go in H as (s5 & H5 & H).
  pose proof (require_selection_Go _ _ H) as (-> & _).
  exists s1, s2, s3, s4. auto 10.
Qed.

(** When the cache loads, reading it is no step to speak of. *)
Lemma read_cache_loads (i : input) : cache_loads i -> read_cache i = Go tt.
Proof.
  unfold cache_loads, read_cache. intros [->|Hne]; [reflexivity|].
  destruct (arg_no_config (args (sys i))); [reflexivity|].
  now destruct (cache_on_disk i).
Qed.

(** A run that gets through lines 176-242 has loaded its cache. *)
Lemma resolve_loaded (rt : Runtime) (i : input) (s : selection) :
  resolve rt i = Go s -> cache_loads i.
Proof.
  unfold resolve, cache_loads, read_cache.
  destruct (arg_no_config (args (sys i))); [now left|].
  destruct (cache_on_disk i); try discriminate; intros _; right;
    discriminate.
Qed.

Lemma resolve_products (rt : Runtime) (i : input) (s : selection) :
  resolve rt i = Go s ->
  arg_products (args (sys i)) <> [] ->
  cur_products s = user_products rt (arg_products (args (sys i))).
Proof.
  intros H Hflags.
  apply resolve_Go in H as (s1 & s2 & s3 & s4 & H1 & H2 & H3 & H4 & H5 & _).
  apply take_products_Go in H1 as (_ & H1).
  apply take_mode_Go in H2 as (_ & H2).
  apply take_site_Go in H3 as (_ & H3).
  apply take_version_Go in H4 as (_ & H4 & _).
  apply take_build_dir_Go in H5 as (_ & H5).
  rewrite H5, H4, H3, H2. auto.
Qed.

Lemma resolve_actual (rt : Runtime) (i : input) (s : selection) :
  resolve rt i = Go s ->
  cur_actual_version s = cur_actual_version (start i).
Proof.
  intros H.
  apply resolve_Go in H as (s1 & s2 & s3 & s4 & H1 & H2 & H3 & H4 & H5 & _).
  apply take_products_Go in H1 as ([_ H1] & _).
  apply take_mode_Go in H2 as ([_ H2] & _).
  apply take_site_Go in H3 as ([_ H3] & _).
  apply take_version_Go in H4 as (H4 & _).
  apply take_build_dir_Go in H5 as ([_ H5] & _).
  congruence.
Qed.

(** ** The requested products *)

Lemma user_products_sorted_distinct (rt : Runtime) (flags : list string) :
  user_products rt flags
  = Py.sorted (Py.distinct (flat_map Py.split flags)).
Proof. apply PyFacts.sorted_set_iter. Qed.

Lemma user_products_In (rt : Runtime) (flags : list string) (p : string) :
  In p (user_products rt flags)
  <-> exists a, In a flags /\ In p (Py.split a).
Proof.
  rewrite user_products_sorted_distinct, <- in_flat_map. split; intros H.
  - apply PyFacts.distinct_In.
    eapply Permutation_in; [apply PyFacts.sorted_perm | exact H].
  - eapply Permutation_in; [apply Permutation_sym, PyFacts.sorted_perm|].
    now apply PyFacts.distinct_In.
Qed.

Lemma user_products_increasing (rt : Runtime) (flags : list string) :
  StronglySorted str_lt (user_products rt flags).
Proof.
  rewrite user_products_sorted_distinct.
  apply PyFacts.sorted_strict; [|apply PyFacts.sorted_sorted].
  eapply Permutation_NoDup;
    [apply Permutation_sym, PyFacts.sorted_perm | apply PyFacts.distinct_NoDup].
Qed.

(** C1. In a run that is given --products and gets through the checks of its
    arguments, the products of the selection are the words of all --products
    values, chained, without repetition, in increasing order: a product is
    selected exactly when it is a word of some --products value, so nothing
    of the cached or default products stays. The values "b a", then a and b
    as two flags, then "a b" all give [a; b], whatever the order in which
    the process iterates over a set. *)
Theorem C1_requested_products_replace :
  forall (rt : Runtime) (i : input) (s : selection),
    arg_products (args (sys i)) <> [] ->
    resolve rt i = Go s ->
    cur_products s = user_products rt (arg_products (args (sys i)))
    /\ cur_products s
       = Py.sorted
           (Py.distinct (flat_map Py.split (arg_products (args (sys i)))))
    /\ (forall p,
           In p (cur_products s)
           <-> exists a, In a (arg_products (args (sys i)))
                         /\ In p (Py.split a))
    /\ StronglySorted str_lt (cur_products s)
    /\ user_products rt ["b a"] = ["a"; "b"]
    /\ user_products rt ["a"; "b"] = ["a"; "b"]
    /\ user_products rt ["a b"] = ["a"; "b"].
Proof.
  intros rt i s Hflags Hres.
  pose proof (resolve_products rt i s Hres Hflags) as Hps.
  rewrite Hps. split; [reflexivity|].
  split; [apply user_products_sorted_distinct|].
  split; [intros p; apply user_products_In|].
  split; [apply user_products_increasing|].
  rewrite !user_products_sorted_distinct. repeat split; reflexivity.
Qed.

(** The cache holds product [a]; the run asks for "b a". *)
Lemma C1_requested_products_replace_witness :
  arg_products (args (sys Sample.ask_b_a)) <> []
  /\ (exists s, resolve Sample.backwards Sample.ask_b_a = Go s
                /\ cur_products s = ["a"; "b"]).
Proof.
  split; [discriminate|].
  eexists. split; [reflexivity|].
  exact (proj1 (proj2 (C1_requested_products_replace Sample.backwards
                         Sample.ask_b_a _ ltac:(discriminate) eq_refl))).
Defined.

(** ** The version argument *)

(** Lines 176-202 do not look at [write]: with it set beforehand they take
    the same course. *)
Lemma take_products_write (rt : Runtime) (i : input) (s : selection) :
  take_products rt i (with_write s)
  = and_then (take_products rt i s) (fun s' => Go (with_write s')).
Proof.
  unfold take_products.
  destruct (arg_products (args (sys i))); [reflexivity|].
  destruct (unknown_product _ _); reflexivity.
Qed.

Lemma take_mode_write (i : input) (s : selection) :
  take_mode i (with_write s)
  = and_then (take_mode i s) (fun s' => Go (with_write s')).
Proof.
  unfold take_mode.
  destruct (arg_mode (args (sys i))) as [m|]; [|reflexivity].
  destruct (Py.truthy m); [|reflexivity].
  destruct (Py.mem m _); reflexivity.
Qed.

Lemma take_site_write (i : input) (s : selection) :
  take_site i (with_write s)
  = and_then (take_site i s) (fun s' => Go (with_write s')).
Proof.
  unfold take_site.
  destruct (arg_site (args (sys i))) as [m|]; [|reflexivity].
  destruct (Py.truthy m); [|reflexivity].
  destruct (Py.mem m _); reflexivity.
Qed.

(** With accepted --products, --mode and --site a run gets to line 204,
    with the version it started from. *)
Lemma accepted_reaches_version (rt : Runtime) (i : input) :
  accepted_before_version rt i ->
  exists s1 s2 s3,
    take_products rt i (start i) = Go s1 /\ take_mode i s1 = Go s2
    /\ take_site i s2 = Go s3 /\ cur_version s3 = cur_version (start i).
Proof.
  intros (Hp & Hm & Hs).
  assert (exists s1, take_products rt i (start i) = Go s1) as [s1 H1].
  { unfold take_products. destruct (arg_products (args (sys i))); eauto.
    rewrite Hp. eauto. }
  assert (exists s2, take_mode i s1 = Go s2) as [s2 H2].
  { unfold take_mode. destruct (arg_mode (args (sys i))) as [m|]; eauto.
    destruct (Py.truthy m) eqn:Et; eauto.
    rewrite (proj2 (PyFacts.mem_In _ _) (Hm m eq_refl Et)). eauto. }
  assert (exists s3, take_site i s2 = Go s3) as [s3 H3].
  { unfold take_site. destruct (arg_site (args (sys i))) as [m|]; eauto.
    destruct (Py.truthy m) eqn:Et; eauto.
    rewrite (proj2 (PyFacts.mem_In _ _) (Hs m eq_refl Et)). eauto. }
  exists s1, s2, s3. repeat split; try assumption.
  apply take_products_Go in H1 as ([H1 _] & _).
  apply take_mode_Go in H2 as ([H2 _] & _).
  apply take_site_Go in H3 as ([H3 _] & _).
  congruence.
Qed.

Lemma resolve_same_version (rt : Runtime) (i : input) (v : string) :
  init (sys i) = false ->
  arg_version (args (sys i)) = Some v ->
  Py.truthy v = true ->
  v = cur_version (start i) ->
  resolve rt (write_instead_of_version i) = resolve rt i.
Proof.
  intros Hinit Harg Ht Hv. unfold resolve.
  change (start (write_instead_of_version i)) with (with_write (start i)).
  change (take_products rt (write_instead_of_version i))
    with (take_products rt i).
  change (take_mode (write_instead_of_version i)) with (take_mode i).
  change (take_site (write_instead_of_version i)) with (take_site i).
  change (take_build_dir (write_instead_of_version i))
    with (take_build_dir i).
  rewrite take_products_write.
  destruct (take_products rt i (start i)) as [s1| |] eqn:E1;
    simpl; try reflexivity.
  rewrite take_mode_write.
  destruct (take_mode i s1) as [s2| |] eqn:E2; simpl; try reflexivity.
  rewrite take_site_write.
  destruct (take_site i s2) as [s3| |] eqn:E3; simpl; try reflexivity.
  apply take_products_Go in E1 as ([E1 _] & _).
  apply take_mode_Go in E2 as ([E2 _] & _).
  apply take_site_Go in E3 as ([E3 _] & _).
  unfold take_version. rewrite Harg, Ht, Hinit.
  replace (String.eqb v (cur_version s3)) with true
    by (symmetry; apply String.eqb_eq; congruence).
  reflexivity.
Qed.

Lemma configure_same_version (rt : Runtime) (i : input) (v : string) :
  init (sys i) = false ->
  arg_version (args (sys i)) = Some v ->
  Py.truthy v = true ->
  v = cur_version (start i) ->
  configure rt i = configure rt (write_instead_of_version i).
Proof.
  intros Hinit Harg Ht Hv.
  pose proof (resolve_same_version rt i v Hinit Harg Ht Hv) as Hres.
  unfold configure.
  change (arg_list (args (sys (write_instead_of_version i))))
    with (arg_list (args (sys i))).
  destruct (arg_list (args (sys i))); [reflexivity|].
  unfold checked. rewrite Hres. reflexivity.
Qed.

(** C2, as the code has it. In a later run (no --init) that gets to the
    version check, that is without --list, with a cache that loads and with
    --products, --mode and --site accepted, a --version argument that
    differs from the current
    version (the cached one, or "default") ends the run with the error about
    the version that cannot be changed and with exit code 1, and nothing is
    written. The same version is let through: the run then is the run that
    is given --write in place of --version. *)
Theorem C2_version_immutable_after_init :
  forall (rt : Runtime) (i : input) (v : string),
    init (sys i) = false ->
    arg_list (args (sys i)) = false ->
    cache_loads i ->
    accepted_before_version rt i ->
    arg_version (args (sys i)) = Some v ->
    Py.truthy v = true ->
    cur_version (start i) = Py.get_or (cached_version (load_cache i)) "default"
    /\ (v <> cur_version (start i) ->
        configure rt i
        = {| status := Return 1;
             stdout := [ version_immutable v ];
             written := [] |})
    /\ (v = cur_version (start i) ->
        configure rt i = configure rt (write_instead_of_version i)).
Proof.
  intros rt i v Hinit Hlist Hloads Hacc Harg Ht.
  split; [reflexivity|]. split; intros Hv.
  - destruct (accepted_reaches_version rt i Hacc)
      as (s1 & s2 & s3 & H1 & H2 & H3 & Hcur).
    unfold configure, checked, resolve.
    rewrite Hlist, (read_cache_loads i Hloads), H1. simpl.
    rewrite H2. simpl. rewrite H3. simpl.
    unfold take_version. rewrite Harg, Ht, Hinit, Hcur.
    destruct (String.eqb_spec v (cur_version (start i))); [contradiction|].
    reflexivity.
  - now apply configure_same_version with (v := v).
Qed.

(** After an initialization with the default version, --version v2. *)
Lemma C2_version_immutable_after_init_witness :
  init (sys Sample.other_version) = false
  /\ arg_version (args (sys Sample.other_version)) = Some "v2"
  /\ cur_version (start Sample.other_version) = "default"
  /\ status (configure Sample.forwards Sample.other_version) = Return 1.
Proof.
  split; [reflexivity|]. split; [reflexivity|]. split; [reflexivity|].
  rewrite (proj1 (proj2 (C2_version_immutable_after_init Sample.forwards
                           Sample.other_version "v2" eq_refl eq_refl
                           ltac:(right; discriminate)
                           ltac:(repeat split; discriminate)
                           eq_refl eq_refl))
             ltac:(discriminate)).
  reflexivity.
Defined.

(** C2 as it is stated, at a run that also asks for the catalogs: the
    version differs from the current one and the run returns 0. *)
Lemma C2_counterexample_list :
  init (sys Sample.list_other_version) = false
  /\ arg_version (args (sys Sample.list_other_version)) = Some "v2"
  /\ cur_version (start Sample.list_other_version) = "default"
  /\ status (configure Sample.forwards Sample.list_other_version) = Return 0
  /\ ~ In (version_immutable "v2")
          (stdout (configure Sample.forwards Sample.list_other_version)).
Proof.
  split; [reflexivity|]. split; [reflexivity|]. split; [reflexivity|].
  split; [reflexivity|]. vm_compute. intuition discriminate.
Qed.

(** ** The default version *)

(** The loop of lines 249-259 passes the products that agree with the
    version it holds. *)
Lemma default_versions_agree (cf : config) (a : string)
    (pre rest : list string) :
  (forall q, In q pre -> default_version_of cf q = Some a) ->
  default_versions cf (Some a) (pre ++ rest)
  = default_versions cf (Some a) rest.
Proof.
  induction pre as [|q pre IH]; intros Hall; simpl; [reflexivity|].
  assert (default_version_of cf q = Some a) as Hq by (apply Hall; now left).
  unfold default_version_of in Hq. unfold getitem.
  destruct (Py.lookup q (products cf)) as [pr|]; [|discriminate].
  simpl in *. injection Hq as ->. rewrite String.eqb_refl. simpl.
  apply IH. intros; apply Hall; now right.
Qed.

(** It stops at a product that does not. *)
Lemma default_versions_mismatch (cf : config) (a p v : string)
    (post : list string) :
  default_version_of cf p = Some v -> v <> a ->
  default_versions cf (Some a) (p :: post) = Stop [ incompatible p v a ].
Proof.
  intros Hp Hne. simpl. unfold default_version_of in Hp. unfold getitem.
  destruct (Py.lookup p (products cf)) as [pr|]; [|discriminate].
  simpl in *. injection Hp as ->.
  destruct (String.eqb_spec v a); [contradiction|].
  reflexivity.
Qed.

(** Started from [None], it holds the version of the first product. *)
Lemma default_versions_first (cf : config) (p v : string)
    (rest : list string) :
  default_version_of cf p = Some v ->
  default_versions cf None (p :: rest) = default_versions cf (Some v) rest.
Proof.
  intros Hp. simpl. unfold default_version_of in Hp. unfold getitem.
  destruct (Py.lookup p (products cf)) as [pr|]; [|discriminate].
  simpl in *. now injection Hp as ->.
Qed.

Lemma default_versions_all (cf : config) (a : string) (ps : list string) :
  (forall q, In q ps -> default_version_of cf q = Some a) ->
  default_versions cf (Some a) ps = Go (Some a).
Proof.
  intros Hall. rewrite <- (app_nil_r ps).
  now rewrite default_versions_agree.
Qed.

Lemma default_versions_at (cf : config) (a p v : string)
    (pre post : list string) :
  (forall q, In q pre -> default_version_of cf q = Some a) ->
  default_version_of cf p = Some v -> v <> a ->
  default_versions cf (Some a) (pre ++ p :: post)
  = Stop [ incompatible p v a ].
Proof.
  intros Hpre Hp Hne. rewrite default_versions_agree by assumption.
  now apply default_versions_mismatch.
Qed.

(** A run without --list whose checks stop with messages returns 1, prints
    them and writes nothing. *)
Lemma configure_Stop (rt : Runtime) (i : input) (messages : list printed) :
  arg_list (args (sys i)) = false ->
  checked rt i = Stop messages ->
  configure rt i
  = {| status := Return 1; stdout := messages; written := [] |}.
Proof. intros Hlist H. unfold configure. now rewrite Hlist, H. Qed.

Lemma checked_binding_Stop (rt : Runtime) (i : input) (s : selection)
    (messages : list printed) :
  resolve rt i = Go s ->
  actual_version i s = Stop messages ->
  checked rt i = Stop messages.
Proof.
  intros Hres H. unfold checked, bind_version. rewrite Hres. simpl.
  now rewrite H.
Qed.

(** C3, as the code has it. When the version is "default" in a run without
    --list that got through the checks of its arguments:
    - an initialization starts from no actual version, whatever the cache
      holds; the default version of the first active product is taken, and
      every later active product has to have the same;
    - a later run keeps the actual version of the cache, and every active
      product has to have it as its default version.
    When all do, this version is the concrete one. Otherwise the run returns
    1 with the error that names the first product that differs, its default
    version and the version it was compared with, and nothing is written. *)
Theorem C3_default_version_binding :
  forall (rt : Runtime) (i : input) (s : selection),
    arg_list (args (sys i)) = false ->
    resolve rt i = Go s ->
    cur_version s = "default" ->
    (init (sys i) = true ->
     forall p0 v0 rest,
       cur_products s = p0 :: rest ->
       default_version_of (conf i) p0 = Some v0 ->
       ((forall q, In q rest -> default_version_of (conf i) q = Some v0) ->
        actual_version i s = Go (Some v0))
       /\ (forall pre p v post,
              rest = (pre ++ p :: post)%list ->
              (forall q, In q pre -> default_version_of (conf i) q = Some v0) ->
              default_version_of (conf i) p = Some v -> v <> v0 ->
              configure rt i
              = {| status := Return 1;
                   stdout := [ incompatible p v v0 ];
                   written := [] |}))
    /\ (init (sys i) = false ->
        forall a,
          cache_actual_version (load_cache i) = Some a ->
          ((forall q, In q (cur_products s) ->
                      default_version_of (conf i) q = Some a) ->
           actual_version i s = Go (Some a))
          /\ (forall pre p v post,
                 cur_products s = (pre ++ p :: post)%list ->
                 (forall q, In q pre ->
                            default_version_of (conf i) q = Some a) ->
                 default_version_of (conf i) p = Some v -> v <> a ->
                 configure rt i
                 = {| status := Return 1;
                      stdout := [ incompatible p v a ];
                      written := [] |})).
Proof.
  intros rt i s Hlist Hres Hdef. split; intros Hinit.
  - intros p0 v0 rest Hps Hp0.
    assert (actual_version i s = default_versions (conf i) (Some v0) rest)
      as Hav.
    { unfold actual_version. rewrite Hinit, Hdef, Hps. simpl String.eqb.
      cbv iota. now apply default_versions_first. }
    split.
    + intros Hall. rewrite Hav. now apply default_versions_all.
    + intros pre p v post -> Hpre Hp Hne.
      apply configure_Stop; [assumption|].
      apply checked_binding_Stop with (s := s); [assumption|].
      rewrite Hav. now apply default_versions_at.
  - intros a Hcache.
    assert (actual_version i s
            = default_versions (conf i) (Some a) (cur_products s)) as Hav.
    { unfold actual_version. rewrite Hinit, Hdef.
      rewrite (resolve_actual rt i s Hres). unfold start. simpl.
      now rewrite Hcache. }
    split.
    + intros Hall. rewrite Hav. now apply default_versions_all.
    + intros pre p v post Hps Hpre Hp Hne.
      apply configure_Stop; [assumption|].
      apply checked_binding_Stop with (s := s); [assumption|].
      rewrite Hav, Hps. now apply default_versions_at.
Qed.

(** An initialization with products [a] and [b], which both default to
    [v1]. *)
Lemma C3_default_version_binding_witness :
  arg_list (args (sys Sample.init_a_b)) = false
  /\ (exists s, resolve Sample.forwards Sample.init_a_b = Go s
                /\ cur_version s = "default"
                /\ cur_products s = ["a"; "b"]
                /\ actual_version Sample.init_a_b s = Go (Some "v1")).
Proof.
  split; [reflexivity|].
  eexists. split; [reflexivity|]. split; [reflexivity|].
  split; [reflexivity|].
  refine (proj1 (proj1 (C3_default_version_binding Sample.forwards
                          Sample.init_a_b _ eq_refl eq_refl eq_refl)
                       eq_refl "a" "v1" ["b"] eq_refl eq_refl) _).
  intros q [<-|[]]. reflexivity.
Defined.

(** C3 as it is stated, at a later run that asks for product [c] alone: the
    active products agree on [v2], and the run fails, as the cache holds the
    actual version [v1]. *)
Lemma C3_counterexample_cached_version :
  exists s,
    resolve Sample.forwards Sample.ask_c = Go s
    /\ cur_version s = "default"
    /\ cur_products s = ["c"]
    /\ (forall p, In p (cur_products s) ->
                  default_version_of Sample.doc p = Some "v2")
    /\ actual_version Sample.ask_c s <> Go (Some "v2")
    /\ configure Sample.forwards Sample.ask_c
       = {| status := Return 1;
            stdout := [ Line "c is incompatible with other products: v2 != v1" ];
            written := [] |}.
Proof.
  eexists. split; [reflexivity|]. split; [reflexivity|].
  split; [reflexivity|]. split.
  - intros p [<-|[]]. reflexivity.
  - split; [discriminate | reflexivity].
Qed.


(** ** Names the document does not have *)

Lemma checked_Go (rt : Runtime) (i : input) (s : selection)
    (b : string * version) :
  checked rt i = Go (s, b) ->
  resolve rt i = Go s /\ bind_version i s = Go b
  /\ check_layers rt (conf i) (fst b) (cur_layers (snd b)) (namespaces s)
     = Go tt.
Proof.
  unfold checked. intros H.
  apply and_then_Go in H as (s' & Hres & H).
  apply and_then_Go in H as (b' & Hbind & H).
  apply and_then_Go in H as ([] & Hcheck & H).
  injection H as <- <-. auto.
Qed.

Lemma take_version_given (i : input) (s s' : selection) (v : string) :
  arg_version (args (sys i)) = Some v -> Py.truthy v = true ->
  take_version i s = Go s' ->
  cur_version s' = v
  /\ (init (sys i) = true -> v = "default" \/ declared (versions (conf i)) v).
Proof.
  unfold take_version. intros -> ->.
  destruct (init (sys i)).
  - destruct (String.eqb_spec v "default") as [->|Hne]; simpl.
    + intros [= <-]. split; [reflexivity | now left].
    + destruct (Py.mem v (Py.keys (versions (conf i)))) eqn:Em; simpl;
        [|discriminate].
      intros [= <-]. split; [reflexivity|].
      right. now apply PyFacts.mem_In.
  - destruct (String.eqb_spec v (cur_version s)) as [->|Hne]; simpl;
      [|discriminate].
    intros [= <-]. split; [reflexivity | discriminate].
Qed.



(** A later run that repeats the cached version, which the document no
    longer declares, ends at line 263 with a [KeyError]. *)
Example stale_version_repeated :
  unknown_requested Sample.repeat_stale_version
  /\ configure Sample.forwards Sample.repeat_stale_version
     = {| status := Raise (KeyError (Some "v0"));
          stdout := [];
          written := [] |}.
Proof.
  split; [|reflexivity].
  right. right. right. exists "v0".
  split; [reflexivity|]. split; [reflexivity|]. split; [discriminate|].
  unfold declared. simpl. intuition discriminate.
Qed.




(** ** Layer collections the version does not have *)

Lemma missing_In (cl : Py.dict (list string)) (wanted : list string)
    (l : string) :
  In l (missing cl wanted) <-> In l wanted /\ ~ declared cl l.
Proof.
  unfold missing, declared.
  rewrite PyFacts.distinct_In, filter_In, negb_true_iff, PyFacts.mem_false.
  reflexivity.
Qed.

(** The loop of lines 268-278 passes the namespaces that miss nothing. *)
Lemma check_layers_pass (rt : Runtime) (cf : config) (actual : string)
    (cl : Py.dict (list string)) (pre rest : list string) :
  (forall q, In q pre ->
             exists w, get_product_layers cf q = Some w /\ missing cl w = []) ->
  check_layers rt cf actual cl (pre ++ rest)
  = check_layers rt cf actual cl rest.
Proof.
  induction pre as [|q pre IH]; intros Hall; simpl; [reflexivity|].
  destruct (Hall q) as (w & -> & ->); [now left|].
  apply IH. intros; apply Hall; now right.
Qed.

(** It stops at the first one that misses a collection. *)
Lemma check_layers_miss (rt : Runtime) (cf : config) (actual : string)
    (cl : Py.dict (list string)) (p : string) (wanted post : list string) :
  get_product_layers cf p = Some wanted ->
  missing cl wanted <> [] ->
  check_layers rt cf actual cl (p :: post)
  = Stop [ missing_layers rt p (missing cl wanted) actual ].
Proof.
  intros Hp Hmiss. simpl. rewrite Hp.
  destruct (missing cl wanted); [contradiction | reflexivity].
Qed.

(** C5, as the code has it. In a run without --list that has bound its
    version, the namespaces are gone through in the order core, then the
    active products. At the first one that asks for collections the version
    does not have, the run returns 1 with one error that names this
    namespace, the version and every collection this namespace misses, and
    nothing is written. The namespaces after it are not looked at: what
    they miss is not reported. *)
Theorem C5_missing_layers_of_first_namespace :
  forall (rt : Runtime) (i : input) (s : selection) (actual : string)
         (v : version) (pre : list string) (p : string)
         (post wanted : list string),
    arg_list (args (sys i)) = false ->
    resolve rt i = Go s ->
    bind_version i s = Go (actual, v) ->
    namespaces s = (pre ++ p :: post)%list ->
    (forall q, In q pre ->
               exists w, get_product_layers (conf i) q = Some w
                         /\ missing (cur_layers v) w = []) ->
    get_product_layers (conf i) p = Some wanted ->
    missing (cur_layers v) wanted <> [] ->
    configure rt i
    = {| status := Return 1;
         stdout :=
           [ Line ("Product '" ++ p ++ "' requires layer collection(s) '"
                   ++ Py.join " " (set_iter rt (missing (cur_layers v) wanted))
                   ++ "' which is not present in version '" ++ actual
                   ++ "'") ];
         written := [] |}
    /\ (forall l,
           In l (set_iter rt (missing (cur_layers v) wanted))
           <-> In l wanted /\ ~ declared (cur_layers v) l).
Proof.
  intros rt i s actual v pre p post wanted Hlist Hres Hbind Hnames Hpre Hp
         Hmiss.
  split.
  - apply configure_Stop; [assumption|].
    unfold checked. rewrite Hres. cbn [and_then]. rewrite Hbind.
    cbn [and_then fst snd].
    rewrite Hnames, check_layers_pass by assumption.
    rewrite (check_layers_miss rt (conf i) actual (cur_layers v) p wanted post)
      by assumption.
    reflexivity.
  - intros l. rewrite <- missing_In.
    split; apply Permutation_in;
      [|apply Permutation_sym]; apply set_iter_perm.
Qed.

(** An initialization with products [d] and [e]: [d] misses L8 and L9,
    [e] misses L7. *)
Lemma C5_missing_layers_of_first_namespace_witness :
  exists s v,
    resolve Sample.forwards Sample.init_d_e = Go s
    /\ bind_version Sample.init_d_e s = Go ("v1", v)
    /\ namespaces s = ["core"; "d"; "e"]
    /\ configure Sample.forwards Sample.init_d_e
       = {| status := Return 1;
            stdout :=
              [ Line "Product 'd' requires layer collection(s) 'L8 L9' which is not present in version 'v1'" ];
            written := [] |}.
Proof.
  eexists. eexists.
  split; [reflexivity|]. split; [reflexivity|]. split; [reflexivity|].
  refine (proj1 (C5_missing_layers_of_first_namespace Sample.forwards
                   Sample.init_d_e _ "v1" _ ["core"] "d" ["e"]
                   ["L8"; "L1"; "L9"] eq_refl eq_refl eq_refl eq_refl _
                   eq_refl _)).
  - intros q [<-|[]]. exists []. split; reflexivity.
  - discriminate.
Defined.

(** C5 as it is stated, at that run: two namespaces miss collections, and
    the one error there is names [d] alone; L7, which [e] misses, is not in
    it. *)
Lemma C5_counterexample_second_namespace :
  exists s v,
    checked Sample.forwards Sample.init_d_e
    = Stop [ Line "Product 'd' requires layer collection(s) 'L8 L9' which is not present in version 'v1'" ]
    /\ resolve Sample.forwards Sample.init_d_e = Go s
    /\ bind_version Sample.init_d_e s = Go ("v1", v)
    /\ In "d" (namespaces s) /\ In "e" (namespaces s)
    /\ missing (cur_layers v) (namespace_layers Sample.lacking "d")
       = ["L8"; "L9"]
    /\ missing (cur_layers v) (namespace_layers Sample.lacking "e") = ["L7"]
    /\ stdout (configure Sample.forwards Sample.init_d_e)
       = [ Line "Product 'd' requires layer collection(s) 'L8 L9' which is not present in version 'v1'" ].
Proof.
  eexists. eexists.
  split; [reflexivity|]. split; [reflexivity|]. split; [reflexivity|].
  split; [simpl; tauto|]. split; [simpl; tauto|].
  split; [reflexivity|]. split; reflexivity.
Qed.


(** ** The text of the files *)

Lemma append_nil_r (s : string) : s ++ EmptyString = s.
Proof. induction s as [|c s IH]; simpl; congruence. Qed.

Lemma append_assoc (a b c : string) : (a ++ b) ++ c = a ++ b ++ c.
Proof. induction a as [|x a IH]; simpl; congruence. Qed.

Lemma concat_cons (x : string) (xs : list string) :
  String.concat EmptyString (x :: xs) = x ++ String.concat EmptyString xs.
Proof.
  destruct xs; simpl; [now rewrite append_nil_r | reflexivity].
Qed.

Lemma concat_app (xs ys : list string) :
  String.concat EmptyString (xs ++ ys)
  = String.concat EmptyString xs ++ String.concat EmptyString ys.
Proof.
  induction xs as [|x xs IH].
  - reflexivity.
  - rewrite <- app_comm_cons, !concat_cons, IH. now rewrite append_assoc.
Qed.

Lemma then_write_ext {A B : Type} (m : writing A) (k k' : A -> writing B) :
  (forall a, k a = k' a) -> then_write m k = then_write m k'.
Proof.
  intros Hk. destruct m as [t [e|a]]; simpl; [reflexivity | now rewrite Hk].
Qed.

(** Writing the elements of a list one after the other writes their
    concatenation. *)
Lemma w_for_f_write (xs : list string) :
  w_for xs f_write = (String.concat EmptyString xs, inr tt).
Proof.
  induction xs as [|x xs IH].
  - reflexivity.
  - cbn [w_for]. rewrite IH, concat_cons. reflexivity.
Qed.

(** With every namespace declared, the loop of lines 463-471 writes the
    masks of each namespace and a newline, and collects what the namespaces
    ask for. *)
Lemma write_masks_declared (cf : config) (cl : Py.dict (list string))
    (names : list string) :
  (forall n, In n names -> get_product_layers cf n <> None) ->
  write_masks cf cl names
  = (String.concat EmptyString
       (flat_map (fun n => mask_directives cl n (namespace_layers cf n)
                           ++ [Py.nl])%list
                 names),
     inr (requested_layers cf names)).
Proof.
  induction names as [|n names IH]; intros Hall.
  - reflexivity.
  - destruct (get_product_layers cf n) as [w|] eqn:En;
      [|exfalso; apply (Hall n); [now left | assumption]].
    assert (namespace_layers cf n = w) as Hn
      by (unfold namespace_layers; now rewrite En).
    cbn [write_masks flat_map]. unfold requested_layers. cbn [flat_map].
    fold (requested_layers cf names).
    rewrite En, Hn, w_for_f_write, IH by (intros; apply Hall; now right).
    cbn [then_write f_write done].
    rewrite !concat_app, concat_cons, !append_assoc.
    cbn [String.concat]. rewrite append_nil_r. reflexivity.
Qed.

(** A run that passes the check of lines 268-278 has looked up every
    namespace. *)
Lemma check_layers_declared (rt : Runtime) (cf : config) (actual : string)
    (cl : Py.dict (list string)) (names : list string) :
  check_layers rt cf actual cl names = Go tt ->
  forall n, In n names -> get_product_layers cf n <> None.
Proof.
  induction names as [|q names IH]; simpl; [tauto|].
  destruct (get_product_layers cf q) as [w|] eqn:Eq; [|discriminate].
  destruct (missing cl w); [|discriminate].
  intros H n [<-|Hin]; [congruence | now apply IH].
Qed.

(** ** Masks and inclusions *)







(** ** What a run that writes leaves behind *)

(** Nothing in the block of lines 280-338 can raise. *)
Lemma env_file_done (rt : Runtime) (i : input) (s : selection)
    (actual : string) (v : version) :
  snd (env_file rt i s actual v) = inr tt.
Proof.
  unfold env_file, bootstrap, write_hook.
  destruct (init (sys i)); [|reflexivity].
  destruct (Py.truthy_opt (bitbakedir v)), (version_pyrex v); reflexivity.
Qed.

(** A run that writes the build directory and returns 0 has made the
    directory and written site.conf, one file for each declared product,
    and bblayers.conf, after the environment file and the cache. *)
Lemma configure_build_files (rt : Runtime) (i : input) (s : selection)
    (actual : string) (v : version) :
  arg_list (args (sys i)) = false ->
  checked rt i = Go (s, (actual, v)) ->
  write s = true ->
  status (configure rt i) = Return 0 ->
  exists before,
    written (configure rt i)
    = (before
       ++ [ MkDir (multiconfig_dir rt s);
            BuildFile (conf_path rt s "site.conf")
                      (wrote (site_conf rt (conf i) s)) ]
       ++ product_files rt (conf i) s
       ++ [ BuildFile (conf_path rt s "bblayers.conf")
                      (wrote (bblayers_conf rt (conf i) s v)) ])%list.
Proof.
  intros Hlist Hchecked Hwrite.
  unfold configure, emit. rewrite Hlist, Hchecked, Hwrite.
  unfold build_files, to_file.
  rewrite env_file_done.
  destruct (site_conf rt (conf i) s) as [site [e|[]]];
    [cbn; destruct (arg_no_config (args (sys i))); discriminate|].
  destruct (bblayers_conf rt (conf i) s v) as [bb [e|[]]];
    [cbn; destruct (arg_no_config (args (sys i))); cbn; discriminate|].
  intros _. cbn.
  exists (EnvFile (env (sys i)) (wrote (env_file rt i s actual v))
            :: (if arg_no_config (args (sys i)) then []
                else [CacheFile (cache_path rt i) (new_cache rt s actual)])).
  destruct (arg_no_config (args (sys i))); cbn;
    rewrite ?app_nil_r; reflexivity.
Qed.

(** With every namespace declared, bblayers.conf is its head, the masks of
    each namespace, the inclusions and its end. *)
Lemma bblayers_conf_text (rt : Runtime) (cf : config) (s : selection)
    (v : version) :
  (forall n, In n (namespaces s) -> get_product_layers cf n <> None) ->
  bblayers_conf rt cf s v
  = (bblayers_head
     ++ String.concat EmptyString
          (flat_map (fun n => mask_directives (cur_layers v) n
                                (namespace_layers cf n) ++ [Py.nl])%list
                    (namespaces s))
     ++ String.concat EmptyString
          (include_directives (layers_of v)
             (requested_layers cf (namespaces s)))
     ++ meta_whisk rt ++ Py.nl ++ devtool_layers,
     inr tt).
Proof.
  intros Hall. unfold bblayers_conf.
  rewrite write_masks_declared by assumption.
  cbn [then_write f_write]. rewrite w_for_f_write.
  cbn [then_write f_write]. reflexivity.
Qed.



(** C7. When a run writes the build directory and returns 0, every product
    the document declares, active or not, has its file product-NAME.conf
    under conf/multiconfig: the line of whisk, the name and the description
    of the product, an empty line and the configuration text of the
    product. *)
Theorem C7_every_declared_product_gets_a_file :
  forall (rt : Runtime) (i : input) (s : selection) (actual : string)
         (v : version),
    arg_list (args (sys i)) = false ->
    checked rt i = Go (s, (actual, v)) ->
    write s = true ->
    status (configure rt i) = Return 0 ->
    forall name p,
      In (name, p) (products (conf i)) ->
      In (BuildFile
            (joinpath rt (joinpath rt (joinpath rt (build_dir s) "conf")
                                   "multiconfig")
                      ("product-" ++ name ++ ".conf"))
            (product_file name p))
         (written (configure rt i))
      /\ product_file name p
         = "# This file was dynamically generated by whisk" ++ Py.nl
           ++ "WHISK_PRODUCT = " ++ Py.quoted name ++ Py.nl
           ++ "WHISK_PRODUCT_DESCRIPTION = "
           ++ Py.quoted (Py.get_or (product_description p) EmptyString)
           ++ Py.nl
           ++ Py.nl
           ++ Py.get_or (product_conf p) EmptyString
           ++ Py.nl.
Proof.
  intros rt i s actual v Hlist Hchecked Hwrite Hstatus name p Hin.
  split.
  - destruct (configure_build_files rt i s actual v Hlist Hchecked Hwrite
                Hstatus) as (before & ->).
    rewrite !in_app_iff. right. right. left.
    unfold product_files. apply in_map_iff. now exists (name, p).
  - unfold product_file, generated_by_whisk.
    now rewrite !append_assoc.
Qed.

(** An initialization with products [a] and [b]: product [c], which is not
    active, has its file. *)
Lemma C7_every_declared_product_gets_a_file_witness :
  exists s,
    resolve Sample.forwards Sample.init_a_b = Go s
    /\ cur_products s = ["a"; "b"]
    /\ write s = true
    /\ status (configure Sample.forwards Sample.init_a_b) = Return 0
    /\ In (BuildFile "build/conf/multiconfig/product-c.conf"
                     (product_file "c" (Sample.a_product "v2" ["L1"])))
          (written (configure Sample.forwards Sample.init_a_b)).
Proof.
  eexists. split; [reflexivity|]. split; [reflexivity|].
  split; [reflexivity|]. split; [reflexivity|].
  refine (proj1 (C7_every_declared_product_gets_a_file Sample.forwards
                   Sample.init_a_b _ "v1" _ eq_refl eq_refl eq_refl eq_refl
                   "c" (Sample.a_product "v2" ["L1"]) _)).
  simpl. tauto.
Defined.


(** ** Listing the options *)

(** C8, against the code. A run with --list never writes anything. When
    its cache loads (or --no-config is given) it prints the four catalogs,
    each under its heading (products, modes, sites, versions, the last with
    "default" as a row after the versions of the document), returns 0 and
    looks at nothing else of the command line. When the cache file holds
    text that is not YAML, the error of [yaml.load] at line 144 leaves
    [configure] before line 165: nothing is printed and the process ends
    with status 1. Lines 145 and 151 recover from a file that cannot be
    opened and from one that holds no mapping; the file that cannot be
    parsed is the case they miss. *)
Theorem C8_list_run_and_the_cache :
  forall (rt : Runtime) (i : input),
    arg_list (args (sys i)) = true ->
    written (configure rt i) = []
    /\ (cache_loads i ->
        configure rt i
        = {| status := Return 0;
             stdout :=
               [ Line "Possible products:";
                 print_products (conf i) (cur_products (start i));
                 Line "Possible modes:";
                 print_modes (conf i) (cur_mode (start i));
                 Line "Possible sites:";
                 print_sites (conf i) (cur_site (start i));
                 Line "Possible versions:";
                 print_versions (conf i) (cur_version (start i)) ];
             written := [] |}
        /\ (exists rows,
               print_versions (conf i) (cur_version (start i))
               = Table (rows
                        ++ [ (get_current
                                (fun v => String.eqb v (cur_version (start i)))
                                "default",
                              "default", EmptyString) ])%list
               /\ map (fun row => snd (fst row)) rows
                  = Py.sorted (Py.keys (versions (conf i))))
        /\ (forall i',
               arg_list (args (sys i')) = true ->
               cache_loads i' ->
               conf i' = conf i ->
               load_cache i' = load_cache i ->
               configure rt i' = configure rt i))
    /\ (arg_no_config (args (sys i)) = false ->
        cache_on_disk i = NotYAML ->
        configure rt i
        = {| status := Raise YAMLError; stdout := []; written := [] |}
        /\ exit_status (status (configure rt i)) = 1%Z).
Proof.
  intros rt i Hlist. unfold configure. rewrite Hlist.
  split; [now destruct (read_cache i)|]. split.
  - intros Hloads. rewrite (read_cache_loads i Hloads).
    split; [reflexivity|]. split.
    + eexists. split; [reflexivity|].
      rewrite map_map. simpl. apply map_id.
    + intros i' Hlist' Hloads' Hconf Hcache.
      rewrite Hlist', (read_cache_loads i' Hloads').
      unfold list_options, start. now rewrite Hconf, Hcache.
  - intros Hnc Hbroken. unfold read_cache. rewrite Hnc, Hbroken.
    split; reflexivity.
Qed.

(** A later run with --list whose cache file is not YAML. *)
Lemma C8_list_run_and_the_cache_witness :
  arg_list (args (sys Sample.list_broken_cache)) = true
  /\ cache_on_disk Sample.list_broken_cache = NotYAML
  /\ status (configure Sample.forwards Sample.list_broken_cache)
     = Raise YAMLError
  /\ exit_status (status (configure Sample.forwards Sample.list_broken_cache))
     = 1%Z.
Proof.
  split; [reflexivity|]. split; [reflexivity|].
  destruct (proj2 (proj2 (C8_list_run_and_the_cache Sample.forwards
                            Sample.list_broken_cache eq_refl))
              eq_refl eq_refl) as (Hrun & Hstatus).
  split; [now rewrite Hrun | exact Hstatus].
Defined.

(** ** The order in which sets are iterated *)

Lemma user_products_runtime (rt : Runtime) (flags : list string) :
  user_products rt flags = user_products (insertion_order rt) flags.
Proof. now rewrite !user_products_sorted_distinct. Qed.

Lemma take_products_runtime (rt : Runtime) (i : input) (s : selection) :
  take_products rt i s = take_products (insertion_order rt) i s.
Proof.
  unfold take_products.
  destruct (arg_products (args (sys i))); [reflexivity|].
  now rewrite user_products_runtime.
Qed.

Lemma resolve_runtime (rt : Runtime) (i : input) :
  resolve rt i = resolve (insertion_order rt) i.
Proof. unfold resolve. now rewrite take_products_runtime. Qed.

(** The check of the layers goes the same way; only the order of the names
    in its message may differ. *)
Lemma check_layers_runtime (rt rt' : Runtime) (cf : config) (actual : string)
    (cl : Py.dict (list string)) (names : list string) :
  match check_layers rt cf actual cl names with
  | Go _ => check_layers rt' cf actual cl names = Go tt
  | Stop _ => exists messages,
                check_layers rt' cf actual cl names = Stop messages
  | Escape e => check_layers rt' cf actual cl names = Escape e
  end.
Proof.
  induction names as [|p names IH]; simpl; [reflexivity|].
  destruct (get_product_layers cf p) as [w|]; [|reflexivity].
  destruct (missing cl w); [exact IH | eauto].
Qed.

Lemma multiconfigs_runtime (rt : Runtime) (s : selection)
    (declared : list string) :
  multiconfigs rt s declared = multiconfigs (insertion_order rt) s declared.
Proof. unfold multiconfigs. now rewrite PyFacts.sorted_set_iter. Qed.

Lemma site_conf_runtime (rt : Runtime) (cf : config) (s : selection) :
  site_conf rt cf s = site_conf (insertion_order rt) cf s.
Proof.
  unfold site_conf.
  repeat (apply then_write_ext; intro).
  now rewrite multiconfigs_runtime.
Qed.

Lemma emit_runtime (rt : Runtime) (i : input) (s : selection)
    (actual : string) (v : version) :
  emit rt i s actual v = emit (insertion_order rt) i s actual v.
Proof.
  unfold emit, build_files. now rewrite site_conf_runtime.
Qed.

(** What a run writes and how it ends do not depend on the order in which
    the process iterates over sets. *)
Lemma configure_runtime (rt : Runtime) (i : input) :
  written (configure rt i) = written (configure (insertion_order rt) i)
  /\ status (configure rt i) = status (configure (insertion_order rt) i).
Proof.
  unfold configure.
  destruct (arg_list (args (sys i))); [now split|].
  unfold checked. rewrite <- resolve_runtime.
  destruct (resolve rt i) as [s| |]; cbn [and_then]; [|now split ..].
  destruct (bind_version i s) as [[actual v]| |]; cbn [and_then];
    [|now split ..].
  pose proof (check_layers_runtime rt (insertion_order rt) (conf i) actual
                (cur_layers v) (namespaces s)) as Hcheck.
  cbn [fst snd].
  destruct (check_layers rt (conf i) actual (cur_layers v) (namespaces s))
    as [[]| |].
  - rewrite Hcheck. cbn [and_then]. now rewrite emit_runtime.
  - destruct Hcheck as [other ->]. cbn [and_then]. now split.
  - rewrite Hcheck. cbn [and_then]. now split.
Qed.

(** C9. Two runs of [configure] on the same arguments, the same document
    and the same state of the cache, in the same place (the directory of
    whisk.py and the paths resolve alike), write the same files with the
    same content and end alike, also when the two processes iterate over
    their sets in different orders. *)
Theorem C9_written_files_deterministic :
  forall (rt1 rt2 : Runtime) (i : input),
    THIS_DIR rt1 = THIS_DIR rt2 ->
    absolute rt1 = absolute rt2 ->
    joinpath rt1 = joinpath rt2 ->
    written (configure rt1 i) = written (configure rt2 i)
    /\ status (configure rt1 i) = status (configure rt2 i).
Proof.
  intros rt1 rt2 i Hdir Habs Hjoin.
  assert (insertion_order rt1 = insertion_order rt2) as Hsame
    by (unfold insertion_order; now rewrite Hdir, Habs, Hjoin).
  destruct (configure_runtime rt1 i) as [-> ->].
  destruct (configure_runtime rt2 i) as [-> ->].
  now rewrite Hsame.
Qed.

(** An initialization with products [a] and [b], once with sets iterated
    forwards and once backwards. *)
Lemma C9_written_files_deterministic_witness :
  written (configure Sample.forwards Sample.init_a_b)
  = written (configure Sample.backwards Sample.init_a_b)
  /\ List.length (written (configure Sample.forwards Sample.init_a_b)) = 8.
Proof.
  split; [|reflexivity].
  exact (proj1 (C9_written_files_deterministic Sample.forwards
                  Sample.backwards Sample.init_a_b eq_refl eq_refl eq_refl)).
Defined.

(** Standard output is not part of this: the error about missing
    collections joins a set as the process iterates it. *)
Example missing_message_follows_set_order :
  stdout (configure Sample.forwards Sample.init_d_e)
  = [ Line "Product 'd' requires layer collection(s) 'L8 L9' which is not present in version 'v1'" ]
  /\ stdout (configure Sample.backwards Sample.init_d_e)
     = [ Line "Product 'd' requires layer collection(s) 'L9 L8' which is not present in version 'v1'" ].
Proof. split; reflexivity. Qed.


(** ** A later run without a cached actual version *)

(** An ignored cache is the empty dict: it holds no actual version, and the
    version is "default". *)
Lemma cache_ignored_no_cache (i : input) :
  cache_ignored i ->
  load_cache i = no_cache
  /\ cache_actual_version (load_cache i) = None
  /\ cur_version (start i) = "default".
Proof.
  intros Hignored.
  assert (load_cache i = no_cache) as Hload.
  { unfold load_cache.
    destruct Hignored as [->|[->|[->|(c & -> & Hversion)]]];
      try reflexivity;
      try (destruct (arg_no_config (args (sys i))); reflexivity).
    destruct (arg_no_config (args (sys i))); [reflexivity|].
    destruct (cache_version c) as [n|]; [|reflexivity].
    destruct (Z.eqb_spec n CACHE_VERSION) as [->|]; [congruence|reflexivity]. }
  unfold start. rewrite Hload. repeat split.
Qed.

(** C10. In a later run (no --init, no --list) that gets through the checks
    of its arguments with the version "default" while the cache gives no
    actual version, the loop over the active products starts from the empty
    string: the default version of every active product is compared with
    it. The first active product, with its default version that is not
    empty, already differs: the run returns 1 with the error that names it,
    and writes nothing, however many products are active and whether or not
    they agree. *)
Theorem C10_default_version_against_empty_string :
  forall (rt : Runtime) (i : input) (s : selection) (p : string)
         (rest : list string) (pr : product),
    init (sys i) = false ->
    arg_list (args (sys i)) = false ->
    cache_actual_version (load_cache i) = None ->
    resolve rt i = Go s ->
    cur_version s = "default" ->
    cur_products s = p :: rest ->
    Py.lookup p (products (conf i)) = Some pr ->
    default_version pr <> EmptyString ->
    actual_version i s
    = default_versions (conf i) (Some EmptyString) (cur_products s)
    /\ configure rt i
       = {| status := Return 1;
            stdout :=
              [ Line (p ++ " is incompatible with other products: "
                      ++ default_version pr ++ " != " ++ EmptyString) ];
            written := [] |}.
Proof.
  intros rt i s p rest pr Hinit Hlist Hcache Hres Hdef Hps Hp Hne.
  assert (actual_version i s
          = default_versions (conf i) (Some EmptyString) (cur_products s))
    as Hav.
  { unfold actual_version. rewrite Hinit, Hdef.
    rewrite (resolve_actual rt i s Hres). unfold start. simpl.
    now rewrite Hcache. }
  split; [exact Hav|].
  apply configure_Stop; [assumption|].
  apply checked_binding_Stop with (s := s); [assumption|].
  rewrite Hav, Hps.
  apply (default_versions_mismatch (conf i) EmptyString p
           (default_version pr) rest); [|assumption].
  unfold default_version_of. now rewrite Hp.
Qed.

(** A later run with --no-config and product [a] alone. *)
Lemma C10_default_version_against_empty_string_witness :
  cache_ignored Sample.later_no_config
  /\ (exists s, resolve Sample.forwards Sample.later_no_config = Go s
                /\ cur_products s = ["a"])
  /\ configure Sample.forwards Sample.later_no_config
     = {| status := Return 1;
          stdout := [ Line "a is incompatible with other products: v1 != " ];
          written := [] |}.
Proof.
  split; [now left|].
  split; [eexists; split; reflexivity|].
  exact (proj2 (C10_default_version_against_empty_string Sample.forwards
                  Sample.later_no_config _ "a" [] _
                  eq_refl eq_refl eq_refl eq_refl eq_refl eq_refl eq_refl
                  ltac:(discriminate))).
Defined.


(** ** The layer check *)

Lemma missing_nil (cl : Py.dict (list string)) (wanted : list string) :
  missing cl wanted = [] <-> forall l, In l wanted -> declared cl l.
Proof.
  split.
  - intros Hnil l Hl.
    destruct (in_dec string_dec l (Py.keys cl)) as [Hin|Hnot]; [exact Hin|].
    assert (In l (missing cl wanted)) as H by (apply missing_In; now split).
    rewrite Hnil in H. contradiction.
  - intros Hall. destruct (missing cl wanted) as [|l ls] eqn:E; [reflexivity|].
    assert (In l (missing cl wanted)) as H by (rewrite E; now left).
    apply missing_In in H as [Hl Hnot]. exfalso. exact (Hnot (Hall l Hl)).
Qed.

Lemma check_layers_Go_iff (rt : Runtime) (cf : config) (actual : string)
    (cl : Py.dict (list string)) (names : list string) :
  check_layers rt cf actual cl names = Go tt
  <-> forall n, In n names ->
                exists wanted,
                  get_product_layers cf n = Some wanted
                  /\ forall l, In l wanted -> declared cl l.
Proof.
  induction names as [|p names IH]; simpl.
  - split; [intros _ n [] | reflexivity].
  - destruct (get_product_layers cf p) as [wanted|] eqn:Ep.
    + destruct (missing cl wanted) as [|m ms] eqn:Em.
      * rewrite IH. split.
        -- intros Hrest n [<-|Hn]; [|now apply Hrest].
           exists wanted. split; [assumption | now apply missing_nil].
        -- intros Hall n Hn. apply Hall. now right.
      * split; [discriminate|]. intros Hall.
        destruct (Hall p (or_introl eq_refl)) as (w & Hw & Hin).
        rewrite Ep in Hw. injection Hw as <-.
        apply missing_nil in Hin. congruence.
    + split; [discriminate|]. intros Hall.
      destruct (Hall p (or_introl eq_refl)) as (w & Hw & _). congruence.
Qed.

(** X1. The check of lines 268-278 lets a run through exactly when every
    namespace is declared and every collection a namespace lists is a
    collection of the bound version. *)
Theorem check_layers_passes_iff :
  forall (rt : Runtime) (cf : config) (actual : string)
         (cl : Py.dict (list string)) (names : list string),
    check_layers rt cf actual cl names = Go tt
    <-> forall n, In n names ->
                  exists wanted,
                    get_product_layers cf n = Some wanted
                    /\ forall l, In l wanted -> declared cl l.
Proof. exact check_layers_Go_iff. Qed.

(** ** Runs that return 1 *)

Lemma and_then_Stop {A B : Type} (m : step A) (k : A -> step B)
    (messages : list printed) :
  and_then m k = Stop messages ->
  m = Stop messages \/ exists a, m = Go a /\ k a = Stop messages.
Proof.
  destruct m as [a| |]; simpl; intros H; try discriminate.
  - right. exists a. split; [reflexivity | exact H].
  - left. now injection H as ->.
Qed.

(** Reading the cache prints nothing and never ends a run with 1. *)
Lemma read_cache_never_stops (i : input) (messages : list printed) :
  read_cache i <> Stop messages.
Proof.
  unfold read_cache. destruct (arg_no_config (args (sys i)));
    [discriminate|]. destruct (cache_on_disk i); discriminate.
Qed.

(** Every step that stops has printed something. *)
Lemma resolve_Stop (rt : Runtime) (i : input) (messages : list printed) :
  resolve rt i = Stop messages -> messages <> [].
Proof.
  unfold resolve. intros H.
  apply and_then_Stop in H as [H|(u & _ & H)];
    [now apply read_cache_never_stops in H|].
  apply and_then_Stop in H as [H|(s1 & _ & H)];
    [unfold take_products in H; step_cases H; discriminate|].
  apply and_then_Stop in H as [H|(s2 & _ & H)];
    [unfold take_mode in H; step_cases H; discriminate|].
  apply and_then_Stop in H as [H|(s3 & _ & H)];
    [unfold take_site in H; step_cases H; discriminate|].
  apply and_then_Stop in H as [H|(s4 & _ & H)];
    [unfold take_version, version_immutable in H; step_cases H;
     discriminate|].
  apply and_then_Stop in H as [H|(s5 & _ & H)];
    [unfold take_build_dir in H; step_cases H; discriminate|].
  unfold require_selection in H; step_cases H; discriminate.
Qed.

Lemma default_versions_Stop (cf : config) (actual : option string)
    (ps : list string) (messages : list printed) :
  default_versions cf actual ps = Stop messages -> messages <> [].
Proof.
  revert actual. induction ps as [|p ps IH]; intros actual; simpl;
    [discriminate|].
  unfold getitem. destruct (Py.lookup p (products cf)); simpl;
    [|discriminate].
  destruct actual as [a|]; [|apply IH].
  destruct (negb _); [intros [= <-]; discriminate | apply IH].
Qed.

Lemma bind_version_Stop (i : input) (s : selection)
    (messages : list printed) :
  bind_version i s = Stop messages -> messages <> [].
Proof.
  unfold bind_version. intros H.
  apply and_then_Stop in H as [H|(a & _ & H)].
  - unfold actual_version in H.
    destruct (String.eqb (cur_version s) "default"); [|discriminate].
    now apply default_versions_Stop in H.
  - destruct a; [|discriminate]. unfold getitem in H.
    destruct (Py.lookup _ _); discriminate.
Qed.

Lemma check_layers_Stop (rt : Runtime) (cf : config) (actual : string)
    (cl : Py.dict (list string)) (names : list string)
    (messages : list printed) :
  check_layers rt cf actual cl names = Stop messages -> messages <> [].
Proof.
  induction names as [|p names IH]; simpl; [discriminate|].
  destruct (get_product_layers cf p); [|discriminate].
  destruct (missing cl l); [exact IH | intros [= <-]; discriminate].
Qed.

Lemma checked_Stop (rt : Runtime) (i : input) (messages : list printed) :
  checked rt i = Stop messages -> messages <> [].
Proof.
  unfold checked. intros H.
  apply and_then_Stop in H as [H|(s & _ & H)];
    [now apply resolve_Stop in H|].
  apply and_then_Stop in H as [H|(b & _ & H)];
    [now apply bind_version_Stop in H|].
  apply and_then_Stop in H as [H|(u & _ & H)];
    [now apply check_layers_Stop in H | discriminate].
Qed.

(** Once the checks are passed a run returns 0 or an exception escapes. *)
Lemma emit_not_1 (rt : Runtime) (i : input) (s : selection)
    (actual : string) (v : version) :
  status (emit rt i s actual v) <> Return 1.
Proof.
  unfold emit. destruct (snd _); simpl; discriminate.
Qed.

(** X2. A run that returns 1 has printed its error and has written
    nothing: no environment file, no cache, no file of the build
    directory. *)
Theorem return_1_writes_nothing :
  forall (rt : Runtime) (i : input),
    status (configure rt i) = Return 1 ->
    written (configure rt i) = [] /\ stdout (configure rt i) <> [].
Proof.
  intros rt i. unfold configure.
  destruct (arg_list (args (sys i))).
  { destruct (read_cache i) as [u|messages|e] eqn:E; try discriminate.
    now apply read_cache_never_stops in E. }
  destruct (checked rt i) as [[s [actual v]]|messages|e] eqn:E; simpl.
  - intros H. now apply emit_not_1 in H.
  - intros _. split; [reflexivity | now apply checked_Stop in E].
  - discriminate.
Qed.

(** A later run that asks for the product [bogus]. *)
Lemma return_1_writes_nothing_witness :
  status (configure Sample.forwards Sample.ask_bogus) = Return 1
  /\ written (configure Sample.forwards Sample.ask_bogus) = [].
Proof.
  split; [reflexivity|].
  exact (proj1 (return_1_writes_nothing Sample.forwards Sample.ask_bogus
                  eq_refl)).
Defined.


(** ** The dict of the layers *)

Lemma lookup_setitem (k k' : string) (paths : list string)
    (d : Py.dict (list string)) :
  Py.lookup k' (Py.setitem k paths d)
  = if String.eqb k' k then Some paths else Py.lookup k' d.
Proof.
  induction d as [|[k0 v0] d IH]; simpl.
  - reflexivity.
  - destruct (String.eqb_spec k k0) as [->|Hne]; simpl.
    + destruct (String.eqb_spec k' k0); reflexivity.
    + rewrite IH.
      destruct (String.eqb_spec k' k0) as [->|Hne'];
        [|reflexivity].
      destruct (String.eqb_spec k0 k); [congruence | reflexivity].
Qed.

Lemma keys_setitem (k k' : string) (paths : list string)
    (d : Py.dict (list string)) :
  In k' (Py.keys (Py.setitem k paths d)) <-> k' = k \/ In k' (Py.keys d).
Proof.
  induction d as [|[k0 v0] d IH]; simpl.
  - intuition.
  - destruct (String.eqb_spec k k0) as [->|Hne]; simpl.
    + intuition.
    + rewrite IH. intuition.
Qed.

Lemma NoDup_setitem (k : string) (paths : list string)
    (d : Py.dict (list string)) :
  NoDup (Py.keys d) -> NoDup (Py.keys (Py.setitem k paths d)).
Proof.
  induction d as [|[k0 v0] d IH]; simpl; intros Hnd.
  - constructor; [tauto | constructor].
  - destruct (String.eqb_spec k k0) as [->|Hne]; simpl.
    + exact Hnd.
    + inversion Hnd as [|? ? Hnot Hnd']; subst.
      constructor; [|now apply IH].
      rewrite keys_setitem. intros [E|Hin]; [congruence | contradiction].
Qed.

Lemma find_last (f : layer -> bool) (ls : list layer) (l : layer) :
  find f (ls ++ [l])
  = match find f ls with
    | Some x => Some x
    | None => if f l then Some l else None
    end.
Proof.
  induction ls as [|x ls IH]; simpl; [reflexivity|].
  destruct (f x); [reflexivity | exact IH].
Qed.

Lemma fold_setitem (ls : list layer) (d : Py.dict (list string))
    (name : string) :
  let after :=
    fold_left (fun d l => Py.setitem (layer_name l) (layer_paths l) d) ls d in
  (NoDup (Py.keys d) -> NoDup (Py.keys after))
  /\ Py.lookup name after
     = match last_declared name ls with
       | Some paths => Some paths
       | None => Py.lookup name d
       end
  /\ (In name (Py.keys after)
      <-> In name (Py.keys d) \/ exists L, In L ls /\ layer_name L = name).
Proof.
  revert d. induction ls as [|l ls IH]; intros d; simpl.
  - split; [tauto|]. split; [reflexivity|].
    split; [tauto | intros [H|(L & [] & _)]; exact H].
  - destruct (IH (Py.setitem (layer_name l) (layer_paths l) d))
      as (Hnd & Hlook & Hkeys).
    split; [intros H; now apply Hnd, NoDup_setitem|].
    split.
    + rewrite Hlook. unfold last_declared. simpl. rewrite find_last.
      destruct (find _ (rev ls)); simpl; [reflexivity|].
      rewrite lookup_setitem, String.eqb_sym.
      destruct (String.eqb (layer_name l) name); reflexivity.
    + rewrite Hkeys, keys_setitem. split.
      * intros [[->|H]|(L & HL & E)]; eauto.
      * intros [H|(L & [<-|HL] & E)]; eauto.
Qed.

Lemma cur_layers_facts (v : version) (name : string) :
  NoDup (Py.keys (cur_layers v))
  /\ Py.lookup name (cur_layers v) = last_declared name (layers_of v)
  /\ (declared (cur_layers v) name
      <-> exists L, In L (layers_of v) /\ layer_name L = name).
Proof.
  unfold cur_layers, declared.
  destruct (fold_setitem (layers_of v) [] name) as (Hnd & Hlook & Hkeys).
  split; [apply Hnd; constructor|]. split.
  - rewrite Hlook. now destruct (last_declared name (layers_of v)).
  - rewrite Hkeys. simpl. tauto.
Qed.

(** X3. The dict of line 265 has every collection name of the version
    once, and gives for a name the paths of the last collection declared
    under it: when a version declares a name twice, the first paths are
    not in the dict. *)
Theorem cur_layers_last_declaration :
  forall (v : version) (name : string),
    NoDup (Py.keys (cur_layers v))
    /\ Py.lookup name (cur_layers v) = last_declared name (layers_of v)
    /\ (declared (cur_layers v) name
        <-> exists L, In L (layers_of v) /\ layer_name L = name).
Proof. exact cur_layers_facts. Qed.

(** A version that declares L1 twice: the masks take the paths of the
    second declaration, the inclusions those of both. *)
Example collection_declared_twice :
  cur_layers More.twice = [("L1", ["/new"]); ("L2", ["/b"])]
  /\ mask_directives (cur_layers More.twice) "b" ["L2"]
     = [ bbmask "b" "/new" ]
  /\ include_directives (layers_of More.twice) ["L1"]
     = [ bblayers "/old"; bblayers "/new" ].
Proof. repeat split. Qed.


(** ** What holds when a run writes *)

Lemma bind_version_Go (i : input) (s : selection) (actual : string)
    (v : version) :
  bind_version i s = Go (actual, v) ->
  actual_version i s = Go (Some actual)
  /\ Py.lookup actual (versions (conf i)) = Some v.
Proof.
  unfold bind_version. intros H.
  apply and_then_Go in H as ([name|] & Ha & H); [|discriminate].
  unfold getitem in H.
  destruct (Py.lookup name (versions (conf i))) as [v'|] eqn:E;
    [|discriminate].
  simpl in H. injection H as <- <-. now split.
Qed.

(** The environment file is the first thing a run writes. *)
Lemma emit_env_first (rt : Runtime) (i : input) (s : selection)
    (actual : string) (v : version) :
  exists rest,
    written (emit rt i s actual v)
    = EnvFile (env (sys i)) (wrote (env_file rt i s actual v)) :: rest.
Proof.
  unfold emit, to_file. rewrite env_file_done. cbn [and_emit fst snd app].
  destruct (snd _); simpl; eauto.
Qed.

(** X4. Whatever a run writes, it writes after all its checks: the run is
    without --list, the products are not empty, mode and site are set, the
    bound version is a version of the document, every active product
    (other than one called core, which is looked up as the core section) is
    declared, and every collection a namespace lists is a collection of the
    bound version. The first thing written is the environment file. *)
Theorem written_only_after_checks :
  forall (rt : Runtime) (i : input),
    written (configure rt i) <> [] ->
    arg_list (args (sys i)) = false
    /\ exists s actual v,
         checked rt i = Go (s, (actual, v))
         /\ cur_products s <> []
         /\ Py.truthy_opt (cur_mode s) = true
         /\ Py.truthy_opt (cur_site s) = true
         /\ Py.lookup actual (versions (conf i)) = Some v
         /\ (forall p, In p (cur_products s) -> p <> "core" ->
                       declared (products (conf i)) p)
         /\ (forall n l, In n (namespaces s) ->
                         In l (namespace_layers (conf i) n) ->
                         exists L, In L (layers_of v) /\ layer_name L = l)
         /\ exists rest,
              written (configure rt i)
              = EnvFile (env (sys i)) (wrote (env_file rt i s actual v))
                  :: rest.
Proof.
  intros rt i. unfold configure.
  destruct (arg_list (args (sys i)));
    [destruct (read_cache i); simpl; congruence|].
  destruct (checked rt i) as [[s [actual v]]|messages|e] eqn:E;
    [|simpl; congruence ..].
  intros _. split; [reflexivity|]. exists s, actual, v.
  apply checked_Go in E as (Hres & Hbind & Hcheck). cbn [fst snd] in Hcheck.
  apply resolve_Go in Hres as (_ & _ & _ & _ & _ & _ & _ & _ & _ & Hreq).
  apply require_selection_Go in Hreq as (_ & Hps & Hmode & Hsite).
  apply bind_version_Go in Hbind as (_ & Hv).
  pose proof (proj1 (check_layers_Go_iff _ _ _ _ _) Hcheck) as Hall.
  repeat (split; [assumption || reflexivity|]).
  split; [|split; [|apply emit_env_first]].
  - intros p Hp Hcore.
    destruct (Hall p (or_intror Hp)) as (w & Hw & _).
    unfold get_product_layers in Hw.
    destruct (String.eqb_spec p "core"); [contradiction|].
    destruct (Py.lookup p (products (conf i))) eqn:El; [|discriminate].
    unfold declared.
    destruct (in_dec string_dec p (Py.keys (products (conf i))))
      as [Hin|Hnot]; [exact Hin|].
    apply PyFacts.lookup_None in Hnot. congruence.
  - intros n l Hn Hl.
    destruct (Hall n Hn) as (w & Hw & Hin).
    unfold namespace_layers in Hl. rewrite Hw in Hl. simpl in Hl.
    now apply (cur_layers_facts v l), Hin.
Qed.

(** An initialization with products [a] and [b]. *)
Lemma written_only_after_checks_witness :
  written (configure Sample.forwards Sample.init_a_b) <> []
  /\ arg_list (args (sys Sample.init_a_b)) = false.
Proof.
  assert (written (configure Sample.forwards Sample.init_a_b) <> []) as H
    by discriminate.
  split; [exact H|].
  exact (proj1 (written_only_after_checks Sample.forwards Sample.init_a_b H)).
Defined.


(** ** When the build directory is written *)

Lemma take_products_sets_write (rt : Runtime) (i : input) (s s' : selection) :
  take_products rt i s = Go s' ->
  write s'
  = write s
    || match arg_products (args (sys i)) with [] => false | _ :: _ => true end.
Proof.
  unfold take_products. intros H. step_cases H; simpl;
    now rewrite ?orb_false_r, ?orb_true_r.
Qed.

Lemma take_mode_sets_write (i : input) (s s' : selection) :
  take_mode i s = Go s' ->
  write s' = write s || Py.truthy_opt (arg_mode (args (sys i))).
Proof.
  unfold take_mode. intros H. step_cases H; simpl;
    rewrite ?Heqb; now rewrite ?orb_false_r, ?orb_true_r.
Qed.

Lemma take_site_sets_write (i : input) (s s' : selection) :
  take_site i s = Go s' ->
  write s' = write s || Py.truthy_opt (arg_site (args (sys i))).
Proof.
  unfold take_site. intros H. step_cases H; simpl;
    rewrite ?Heqb; now rewrite ?orb_false_r, ?orb_true_r.
Qed.

Lemma take_version_sets_write (i : input) (s s' : selection) :
  take_version i s = Go s' ->
  write s' = write s || Py.truthy_opt (arg_version (args (sys i))).
Proof.
  unfold take_version. intros H. step_cases H; simpl;
    rewrite ?Heqb; now rewrite ?orb_false_r, ?orb_true_r.
Qed.

Lemma take_build_dir_keeps_write (i : input) (s s' : selection) :
  take_build_dir i s = Go s' -> write s' = write s.
Proof. unfold take_build_dir. intros H. now step_cases H. Qed.

Lemma resolve_write (rt : Runtime) (i : input) (s : selection) :
  resolve rt i = Go s -> write s = asks_to_write i.
Proof.
  intros H.
  apply resolve_Go in H as (s1 & s2 & s3 & s4 & H1 & H2 & H3 & H4 & H5 & _).
  rewrite (take_build_dir_keeps_write _ _ _ H5),
          (take_version_sets_write _ _ _ H4),
          (take_site_sets_write _ _ _ H3),
          (take_mode_sets_write _ _ _ H2),
          (take_products_sets_write _ _ _ _ H1).
  reflexivity.
Qed.

(** X5. The build directory is written exactly when the run is an
    initialization or is given --write, --products, or a non-empty --mode,
    --site or --version; --build-dir alone does not count. A run that passes
    its checks without any of these returns 0 having written the environment
    file and, unless --no-config is given, the cache, and nothing else; it
    prints the selection unless --quiet is given. With one of them it makes
    the directory conf/multiconfig. *)
Theorem build_directory_written_when_asked :
  forall (rt : Runtime) (i : input) (s : selection) (actual : string)
         (v : version),
    arg_list (args (sys i)) = false ->
    checked rt i = Go (s, (actual, v)) ->
    write s = asks_to_write i
    /\ (asks_to_write i = false ->
        configure rt i
        = {| status := Return 0;
             stdout := if arg_quiet (args (sys i)) then []
                       else summary s actual;
             written :=
               EnvFile (env (sys i)) (wrote (env_file rt i s actual v))
               :: (if arg_no_config (args (sys i)) then []
                   else [CacheFile (cache_path rt i)
                                   (new_cache rt s actual)]) |})
    /\ (asks_to_write i = true ->
        In (MkDir (multiconfig_dir rt s)) (written (configure rt i))).
Proof.
  intros rt i s actual v Hlist Hchecked.
  pose proof (checked_Go rt i s (actual, v) Hchecked) as (Hres & _).
  pose proof (resolve_write rt i s Hres) as Hw.
  split; [exact Hw|].
  unfold configure, emit. rewrite Hlist, Hchecked, Hw.
  unfold to_file. rewrite env_file_done.
  split; intros Hask; rewrite Hask.
  - destruct (arg_no_config (args (sys i))); reflexivity.
  - unfold build_files, to_file.
    destruct (site_conf rt (conf i) s) as [site [e|[]]];
      destruct (bblayers_conf rt (conf i) s v) as [bb [e'|[]]];
      destruct (arg_no_config (args (sys i))); cbn; tauto.
Qed.

(** A later run without arguments on the cache of an initialization. *)
Lemma build_directory_written_when_asked_witness :
  asks_to_write (More.plain (Mapping Sample.cached)) = false
  /\ List.length
       (written (configure Sample.forwards
                           (More.plain (Mapping Sample.cached)))) = 2.
Proof.
  split; [reflexivity|].
  rewrite (proj1 (proj2 (build_directory_written_when_asked Sample.forwards
                           (More.plain (Mapping Sample.cached)) _ "v1" _
                           eq_refl eq_refl)) eq_refl).
  reflexivity.
Defined.


(** ** The cache, written and read back *)

Lemma default_versions_Go (cf : config) (before : option string)
    (ps : list string) (a : string) :
  default_versions cf before ps = Go (Some a) ->
  (forall p, In p ps -> default_version_of cf p = Some a)
  /\ (before = None \/ before = Some a).
Proof.
  revert before. induction ps as [|p ps IH]; intros before; simpl.
  - intros [= ->]. split; [tauto | now right].
  - unfold getitem, default_version_of.
    destruct (Py.lookup p (products cf)) as [pr|] eqn:Ep; simpl;
      [|discriminate].
    destruct before as [a0|].
    + destruct (String.eqb_spec (default_version pr) a0) as [E|Hne]; simpl;
        [|discriminate].
      intros H. apply IH in H as (Hall & [H0|H0]); [discriminate|].
      injection H0 as ->. split; [|now right].
      intros q [<-|Hq]; [now rewrite Ep; simpl; rewrite E | now apply Hall].
    + intros H. apply IH in H as (Hall & [H0|H0]); [discriminate|].
      injection H0 as H0. split; [|now left].
      intros q [<-|Hq]; [now rewrite Ep; simpl; rewrite H0 | now apply Hall].
Qed.

(** The cache is written as soon as the checks are passed, whatever happens
    to the build directory after it. *)
Lemma cache_written (rt : Runtime) (i : input) (s : selection)
    (actual : string) (v : version) :
  arg_list (args (sys i)) = false ->
  arg_no_config (args (sys i)) = false ->
  checked rt i = Go (s, (actual, v)) ->
  In (CacheFile (cache_path rt i) (new_cache rt s actual))
     (written (configure rt i)).
Proof.
  intros Hlist Hnc Hchecked.
  unfold configure, emit, to_file.
  rewrite Hlist, Hchecked, env_file_done, Hnc.
  cbn [and_emit fst snd app].
  destruct (snd _); simpl; auto.
Qed.

(** X6. The cache a run writes brings a later run back to the same
    selection: run again on the same document without any argument, the
    checks pass with the same products, mode, site, version and actual
    version, and with the build directory the first run resolved to. *)
Theorem cache_round_trip :
  forall (rt : Runtime) (i : input) (s : selection) (actual : string)
         (v : version),
    arg_list (args (sys i)) = false ->
    arg_no_config (args (sys i)) = false ->
    checked rt i = Go (s, (actual, v)) ->
    In (CacheFile (cache_path rt i) (new_cache rt s actual))
       (written (configure rt i))
    /\ checked rt (later_run i (new_cache rt s actual))
       = Go ({| write := false;
                cur_products := cur_products s;
                cur_mode := cur_mode s;
                cur_site := cur_site s;
                cur_version := cur_version s;
                cur_actual_version := Some actual;
                build_dir := absolute rt (build_dir s) |},
             (actual, v)).
Proof.
  intros rt i s actual v Hlist Hnc Hchecked.
  split; [now apply cache_written with (v := v)|].
  apply checked_Go in Hchecked as (Hres & Hbind & Hcheck).
  cbn [fst snd] in Hcheck.
  apply resolve_Go in Hres as (_ & _ & _ & _ & _ & _ & _ & _ & _ & Hreq).
  apply require_selection_Go in Hreq as (_ & Hps & Hmode & Hsite).
  apply bind_version_Go in Hbind as (Hactual & Hv).
  destruct (cur_mode s) as [m|] eqn:Em; [|discriminate].
  destruct (cur_site s) as [st|] eqn:Est; [|discriminate].
  destruct (cur_products s) as [|p ps] eqn:Eps; [contradiction|].
  set (s' := {| write := false; cur_products := p :: ps; cur_mode := Some m;
                cur_site := Some st; cur_version := cur_version s;
                cur_actual_version := Some actual;
                build_dir := absolute rt (build_dir s) |}).
  assert (resolve rt (later_run i (new_cache rt s actual)) = Go s') as Hres'.
  { unfold resolve, start, load_cache, new_cache. cbn.
    rewrite Eps, Em, Est. cbn.
    unfold require_selection. cbn. simpl in Hmode, Hsite.
    now rewrite Hmode, Hsite. }
  assert (actual_version (later_run i (new_cache rt s actual)) s'
          = Go (Some actual)) as Hactual'.
  { unfold actual_version in Hactual.
    change ((if String.eqb (cur_version s) "default"
             then default_versions (conf i) (Some actual) (p :: ps)
             else Go (Some (cur_version s))) = Go (Some actual)).
    destruct (String.eqb (cur_version s) "default"); [|exact Hactual].
    apply default_versions_Go in Hactual as (Hall & _).
    apply default_versions_all. rewrite Eps in Hall. exact Hall. }
  unfold checked, bind_version. rewrite Hres'. cbn [and_then].
  rewrite Hactual'. cbn [and_then]. unfold getitem.
  change (conf (later_run i (new_cache rt s actual))) with (conf i).
  rewrite Hv. cbn [and_then fst snd].
  change (namespaces s') with ("core" :: p :: ps).
  unfold namespaces in Hcheck. rewrite Eps in Hcheck. rewrite Hcheck.
  reflexivity.
Qed.

(** An initialization with products [a] and [b], and the run after it. *)
Lemma cache_round_trip_witness :
  exists s,
    checked Sample.forwards Sample.init_a_b = Go (s, ("v1", Sample.a_version
                                                   [Sample.L1; Sample.L2;
                                                    Sample.L3]))
    /\ exists s',
         checked Sample.forwards
                 (later_run Sample.init_a_b (new_cache Sample.forwards s "v1"))
         = Go (s', ("v1", Sample.a_version [Sample.L1; Sample.L2; Sample.L3]))
         /\ cur_products s' = ["a"; "b"]
         /\ build_dir s' = "/work/build".
Proof.
  eexists. split; [reflexivity|].
  eexists. split.
  - exact (proj2 (cache_round_trip Sample.forwards Sample.init_a_b _ "v1" _
                    eq_refl eq_refl eq_refl)).
  - split; reflexivity.
Defined.


(** ** --no-config *)

Lemma product_files_no_cache (rt : Runtime) (cf : config) (s : selection)
    (a : artifact) :
  In a (product_files rt cf s) -> is_cache_file a = false.
Proof.
  unfold product_files. rewrite in_map_iff. now intros (np & <- & _).
Qed.

Lemma build_files_no_cache (rt : Runtime) (cf : config) (s : selection)
    (v : version) (a : artifact) :
  In a (fst (build_files rt cf s v)) -> is_cache_file a = false.
Proof.
  unfold build_files, to_file.
  destruct (site_conf rt cf s) as [site [e|[]]];
    destruct (bblayers_conf rt cf s v) as [bb [e'|[]]]; cbn;
    rewrite ?in_app_iff; cbn;
    intuition (subst; try reflexivity; eauto using product_files_no_cache).
Qed.

(** X7. With --no-config the cache file plays no part: whatever the file
    holds, the run is the same, and the cache is not among the files the
    run writes. *)
Theorem no_config_ignores_cache :
  forall (rt : Runtime) (i : input),
    arg_no_config (args (sys i)) = true ->
    (forall c, configure rt (with_cache_on_disk i c) = configure rt i)
    /\ (forall a, In a (written (configure rt i)) -> is_cache_file a = false).
Proof.
  intros rt i Hnc. split.
  - intros c.
    assert (start (with_cache_on_disk i c) = start i) as Hstart
      by (unfold start, load_cache; cbn; now rewrite Hnc).
    assert (read_cache (with_cache_on_disk i c) = read_cache i) as Hread
      by (unfold read_cache; cbn; now rewrite Hnc).
    unfold configure, checked, resolve. rewrite Hstart, Hread. reflexivity.
  - intros a. unfold configure.
    destruct (arg_list (args (sys i)));
      [destruct (read_cache i); intros []|].
    destruct (checked rt i) as [[s [actual v]]| |]; [|intros [] ..].
    unfold emit, to_file. rewrite env_file_done, Hnc.
    cbn [and_emit fst snd app].
    destruct (write s).
    + destruct (snd (build_files rt (conf i) s v)); cbn;
        (intros [<-|Hin]; [reflexivity | now apply build_files_no_cache in Hin]).
    + cbn. intros [<-|[]]. reflexivity.
Qed.

(** A later run with --no-config, on the cache of an initialization and on
    a file that cannot be read. *)
Lemma no_config_ignores_cache_witness :
  arg_no_config (args (sys Sample.later_no_config)) = true
  /\ configure Sample.forwards
               (with_cache_on_disk Sample.later_no_config Unreadable)
     = configure Sample.forwards Sample.later_no_config.
Proof.
  split; [reflexivity|].
  exact (proj1 (no_config_ignores_cache Sample.forwards
                  Sample.later_no_config eq_refl) Unreadable).
Defined.


(** ** Argument, cache, defaults *)

Lemma take_products_Go_eq (rt : Runtime) (i : input) (s s' : selection) :
  take_products rt i s = Go s' ->
  s' = match arg_products (args (sys i)) with
       | [] => s
       | flags => with_products s (user_products rt flags)
       end.
Proof. unfold take_products. intros H. now step_cases H. Qed.

Lemma take_mode_Go_eq (i : input) (s s' : selection) :
  take_mode i s = Go s' ->
  if Py.truthy_opt (arg_mode (args (sys i)))
  then cur_mode s' = arg_mode (args (sys i))
       /\ cur_products s' = cur_products s /\ cur_site s' = cur_site s
       /\ build_dir s' = build_dir s
  else s' = s.
Proof.
  unfold take_mode. intros H.
  destruct (arg_mode (args (sys i))) as [m|]; simpl;
    [|now injection H as <-].
  destruct (Py.truthy m); [|now injection H as <-].
  destruct (Py.mem m _); [|discriminate]. now injection H as <-.
Qed.

Lemma take_site_Go_eq (i : input) (s s' : selection) :
  take_site i s = Go s' ->
  if Py.truthy_opt (arg_site (args (sys i)))
  then cur_site s' = arg_site (args (sys i))
       /\ cur_products s' = cur_products s /\ cur_mode s' = cur_mode s
       /\ build_dir s' = build_dir s
  else s' = s.
Proof.
  unfold take_site. intros H.
  destruct (arg_site (args (sys i))) as [m|]; simpl;
    [|now injection H as <-].
  destruct (Py.truthy m); [|now injection H as <-].
  destruct (Py.mem m _); [|discriminate]. now injection H as <-.
Qed.

Lemma take_version_keeps (i : input) (s s' : selection) :
  take_version i s = Go s' ->
  cur_mode s' = cur_mode s /\ cur_site s' = cur_site s
  /\ cur_products s' = cur_products s /\ build_dir s' = build_dir s.
Proof. unfold take_version. intros H. now step_cases H. Qed.

Lemma take_build_dir_Go_eq (i : input) (s s' : selection) :
  take_build_dir i s = Go s' ->
  cur_mode s' = cur_mode s /\ cur_site s' = cur_site s
  /\ cur_products s' = cur_products s
  /\ if Py.truthy_opt (arg_build_dir (args (sys i)))
     then init (sys i) = true
          /\ Some (build_dir s') = arg_build_dir (args (sys i))
     else build_dir s' = build_dir s.
Proof.
  unfold take_build_dir. intros H.
  destruct (arg_build_dir (args (sys i))) as [d|]; simpl;
    [|now injection H as <-].
  destruct (Py.truthy d); [|now injection H as <-].
  destruct (init (sys i)); [|discriminate]. now injection H as <-.
Qed.

(** X8. In a run that gets through the checks of its arguments each
    field comes from the first of these that has it: the argument (a
    non-empty --mode, --site or --build-dir, the latter on an initialization
    only; any --products), the cache, the defaults of the document (with
    "build" when there is no default build directory, and no products when
    there are no default products). *)
Theorem selection_precedence :
  forall (rt : Runtime) (i : input) (s : selection),
    resolve rt i = Go s ->
    cur_mode s
    = (if Py.truthy_opt (arg_mode (args (sys i)))
       then arg_mode (args (sys i))
       else or_else (cache_mode (load_cache i))
                    (defaults_get (conf i) defaults_mode))
    /\ cur_site s
       = (if Py.truthy_opt (arg_site (args (sys i)))
          then arg_site (args (sys i))
          else or_else (cache_site (load_cache i))
                       (defaults_get (conf i) defaults_site))
    /\ cur_products s
       = match arg_products (args (sys i)) with
         | [] => Py.get_or (cache_products (load_cache i))
                   (Py.get_or (defaults_get (conf i) defaults_products) [])
         | flags => user_products rt flags
         end
    /\ (if Py.truthy_opt (arg_build_dir (args (sys i)))
        then init (sys i) = true
             /\ Some (build_dir s) = arg_build_dir (args (sys i))
        else build_dir s
             = Py.get_or (cache_build_dir (load_cache i))
                 (Py.get_or (defaults_get (conf i) defaults_build_dir)
                            "build")).
Proof.
  intros rt i s H.
  apply resolve_Go in H as (s1 & s2 & s3 & s4 & H1 & H2 & H3 & H4 & H5 & _).
  apply take_products_Go_eq in H1.
  apply take_mode_Go_eq in H2. apply take_site_Go_eq in H3.
  apply take_version_keeps in H4 as (Hm4 & Hs4 & Hp4 & Hb4).
  apply take_build_dir_Go_eq in H5 as (Hm5 & Hs5 & Hp5 & Hb5).
  rewrite Hm5, Hs5, Hp5, Hm4, Hs4, Hp4.
  assert (cur_mode s1
          = or_else (cache_mode (load_cache i))
                    (defaults_get (conf i) defaults_mode)
          /\ cur_site s1
             = or_else (cache_site (load_cache i))
                       (defaults_get (conf i) defaults_site)
          /\ build_dir s1
             = Py.get_or (cache_build_dir (load_cache i))
                 (Py.get_or (defaults_get (conf i) defaults_build_dir)
                            "build")
          /\ cur_products s1
             = match arg_products (args (sys i)) with
               | [] => Py.get_or (cache_products (load_cache i))
                         (Py.get_or (defaults_get (conf i) defaults_products)
                                    [])
               | flags => user_products rt flags
               end) as (Hm1 & Hs1 & Hb1 & Hp1)
    by (rewrite H1; destruct (arg_products (args (sys i))); now repeat split).
  assert (build_dir s4
          = Py.get_or (cache_build_dir (load_cache i))
              (Py.get_or (defaults_get (conf i) defaults_build_dir) "build"))
    as Hb.
  { rewrite Hb4.
    destruct (Py.truthy_opt (arg_site (args (sys i))));
      destruct (Py.truthy_opt (arg_mode (args (sys i))));
      repeat match goal with
             | H : _ /\ _ |- _ => destruct H
             end; subst; congruence. }
  repeat split.
  - destruct (Py.truthy_opt (arg_site (args (sys i))));
      destruct (Py.truthy_opt (arg_mode (args (sys i))));
      repeat match goal with
             | H : _ /\ _ |- _ => destruct H
             end; subst; congruence.
  - destruct (Py.truthy_opt (arg_site (args (sys i))));
      destruct (Py.truthy_opt (arg_mode (args (sys i))));
      repeat match goal with
             | H : _ /\ _ |- _ => destruct H
             end; subst; congruence.
  - rewrite <- Hp1.
    destruct (Py.truthy_opt (arg_site (args (sys i))));
      destruct (Py.truthy_opt (arg_mode (args (sys i))));
      repeat match goal with
             | H : _ /\ _ |- _ => destruct H
             end; subst; congruence.
  - destruct (Py.truthy_opt (arg_build_dir (args (sys i))));
      [exact Hb5 | now rewrite Hb5, Hb].
Qed.

(** A later run that asks for "b a" on the cache of an initialization:
    the products come from the argument, mode and site from the cache. *)
Lemma selection_precedence_witness :
  exists s,
    resolve Sample.forwards Sample.ask_b_a = Go s
    /\ cur_mode s = Some "debug"
    /\ cur_products s = ["a"; "b"].
Proof.
  eexists. split; [reflexivity|].
  destruct (selection_precedence Sample.forwards Sample.ask_b_a _ eq_refl)
    as (Hm & _ & Hp & _).
  split; [exact Hm | exact Hp].
Defined.


(** ** A site or a mode the document has lost *)

Lemma site_conf_stale_site (rt : Runtime) (cf : config) (s : selection)
    (site : string) :
  cur_site s = Some site ->
  Py.lookup site (sites cf) = None ->
  site_conf rt cf s = (generated_by_whisk, inl (KeyError (Some site))).
Proof.
  intros Hsite Hnone. unfold site_conf, w_getitem.
  rewrite Hsite, Hnone. cbn [then_write f_write].
  now rewrite append_nil_r.
Qed.

Lemma site_conf_stale_mode (rt : Runtime) (cf : config) (s : selection)
    (site mode : string) (e : option_entry) :
  cur_site s = Some site ->
  Py.lookup site (sites cf) = Some e ->
  cur_mode s = Some mode ->
  Py.lookup mode (modes cf) = None ->
  site_conf rt cf s
  = (generated_by_whisk ++ Py.get_or (entry_conf e) EmptyString ++ Py.nl,
     inl (KeyError (Some mode))).
Proof.
  intros Hsite Hsome Hmode Hnone. unfold site_conf, w_getitem.
  rewrite Hsite, Hsome, Hmode, Hnone. cbn [then_write f_write done].
  now rewrite append_nil_r.
Qed.

(** X9. The site and the mode of the cache or of the defaults are not
    checked against the document. When a run that writes the build directory
    has a site the document lacks, the [KeyError] of line 363 escapes after
    the environment file and the cache have been written and the directory
    made: site.conf is left with its first line alone, and no other file of
    the build directory is written. With a known site and a mode the
    document lacks, line 365 raises, and site.conf holds the text of the
    site as well. *)
Theorem stale_site_or_mode_raises_in_site_conf :
  forall (rt : Runtime) (i : input) (s : selection) (actual : string)
         (v : version),
    arg_list (args (sys i)) = false ->
    checked rt i = Go (s, (actual, v)) ->
    write s = true ->
    (forall site,
        cur_site s = Some site ->
        Py.lookup site (sites (conf i)) = None ->
        configure rt i
        = {| status := Raise (KeyError (Some site));
             stdout := [];
             written :=
               (EnvFile (env (sys i)) (wrote (env_file rt i s actual v))
                :: (if arg_no_config (args (sys i)) then []
                    else [CacheFile (cache_path rt i)
                                    (new_cache rt s actual)])
                ++ [ MkDir (multiconfig_dir rt s);
                     BuildFile (conf_path rt s "site.conf")
                               generated_by_whisk ])%list |})
    /\ (forall site mode e,
           cur_site s = Some site ->
           Py.lookup site (sites (conf i)) = Some e ->
           cur_mode s = Some mode ->
           Py.lookup mode (modes (conf i)) = None ->
           configure rt i
           = {| status := Raise (KeyError (Some mode));
                stdout := [];
                written :=
                  (EnvFile (env (sys i)) (wrote (env_file rt i s actual v))
                   :: (if arg_no_config (args (sys i)) then []
                       else [CacheFile (cache_path rt i)
                                       (new_cache rt s actual)])
                   ++ [ MkDir (multiconfig_dir rt s);
                        BuildFile (conf_path rt s "site.conf")
                          (generated_by_whisk
                           ++ Py.get_or (entry_conf e) EmptyString
                           ++ Py.nl) ])%list |}).
Proof.
  intros rt i s actual v Hlist Hchecked Hwrite. split.
  - intros site Hsite Hnone.
    unfold configure, emit, build_files, to_file.
    rewrite Hlist, Hchecked, Hwrite, env_file_done.
    rewrite (site_conf_stale_site rt (conf i) s site Hsite Hnone).
    destruct (arg_no_config (args (sys i))); reflexivity.
  - intros site mode e Hsite Hsome Hmode Hnone.
    unfold configure, emit, build_files, to_file.
    rewrite Hlist, Hchecked, Hwrite, env_file_done.
    rewrite (site_conf_stale_mode rt (conf i) s site mode e Hsite Hsome
               Hmode Hnone).
    destruct (arg_no_config (args (sys i))); reflexivity.
Qed.

(** A later run with --write whose cache names the site [office]. *)
Lemma stale_site_or_mode_raises_in_site_conf_witness :
  status (configure Sample.forwards (More.rewrite More.stale_site))
  = Raise (KeyError (Some "office"))
  /\ List.length
       (written (configure Sample.forwards (More.rewrite More.stale_site)))
     = 4.
Proof.
  rewrite (proj1 (stale_site_or_mode_raises_in_site_conf Sample.forwards
                    (More.rewrite More.stale_site) _ "v1" _ eq_refl eq_refl
                    eq_refl) "office" eq_refl eq_refl).
  split; reflexivity.
Defined.


(** ** The words of --products *)

Lemma chars_app (a b : string) :
  list_ascii_of_string (a ++ b)
  = (list_ascii_of_string a ++ list_ascii_of_string b)%list.
Proof. induction a as [|c a IH]; simpl; congruence. Qed.

Lemma truthy_nonempty (w : string) : Py.truthy w = true <-> w <> EmptyString.
Proof. destruct w; simpl; split; congruence. Qed.

(** What [split] gives are words, as long as the run read so far has no
    space character. *)
Lemma split_from_words (s run : string) :
  (forall c, In c (list_ascii_of_string run) -> Py.isspace c = false) ->
  forall w, In w (Py.split_from run s) -> word w.
Proof.
  revert run. induction s as [|c s IH]; intros run Hrun w; simpl.
  - destruct (Py.truthy run) eqn:Et; [|intros []].
    intros [<-|[]]. split; [now apply truthy_nonempty | exact Hrun].
  - destruct (Py.isspace c) eqn:Ec.
    + destruct (Py.truthy run) eqn:Et.
      * intros [<-|Hin]; [split; [now apply truthy_nonempty | exact Hrun]|].
        apply (IH EmptyString); [intros ? [] | exact Hin].
      * apply (IH EmptyString). intros ? [].
    + apply IH. intros x. rewrite chars_app, in_app_iff.
      intros [Hx|[<-|[]]]; [now apply Hrun | exact Ec].
Qed.

Lemma user_products_words (rt : Runtime) (flags : list string) (p : string) :
  In p (user_products rt flags) -> word p.
Proof.
  intros Hp.
  apply user_products_In in Hp as (a & _ & Hin).
  apply (split_from_words a EmptyString); [intros ? [] | exact Hin].
Qed.

(** X10. The products a run asks for are words: none is empty and none
    holds a space character, however the --products values are spaced. *)
Theorem requested_products_are_words :
  forall (rt : Runtime) (flags : list string) (p : string),
    In p (user_products rt flags) -> word p.
Proof. exact user_products_words. Qed.

Lemma requested_products_are_words_witness :
  In "b" (user_products Sample.backwards ["  b   a "; "a"]) /\ word "b".
Proof.
  assert (In "b" (user_products Sample.backwards ["  b   a "; "a"])) as H
    by (right; left; reflexivity).
  split; [exact H|].
  exact (requested_products_are_words Sample.backwards _ "b" H).
Defined.








(** ** The version of an initialization *)

(** X12. On an initialization that gets through the checks of its arguments,
    a non-empty --version is the version of the selection; when it is not
    "default" it is a version of the document and is bound as it is: the
    default versions of the products and the actual version of the cache
    are not looked at. *)
Theorem init_version_is_bound :
  forall (rt : Runtime) (i : input) (s : selection) (v : string),
    init (sys i) = true ->
    arg_version (args (sys i)) = Some v ->
    Py.truthy v = true ->
    resolve rt i = Go s ->
    cur_version s = v
    /\ (v <> "default" ->
        exists entry,
          Py.lookup v (versions (conf i)) = Some entry
          /\ bind_version i s = Go (v, entry)).
Proof.
  intros rt i s v Hinit Harg Ht Hres.
  apply resolve_Go in Hres as (s1 & s2 & s3 & s4 & _ & _ & _ & H4 & H5 & _).
  destruct (take_version_given i s3 s4 v Harg Ht H4) as (Hcur & Hdecl).
  apply take_build_dir_Go in H5 as ([H5 _] & _).
  assert (cur_version s = v) as Hv by congruence.
  split; [exact Hv|]. intros Hne.
  destruct (Hdecl Hinit) as [E|Hin]; [contradiction|].
  destruct (Py.lookup v (versions (conf i))) as [entry|] eqn:El;
    [|apply PyFacts.lookup_None in El; contradiction].
  exists entry. split; [reflexivity|].
  unfold bind_version, actual_version. rewrite Hv.
  destruct (String.eqb_spec v "default"); [contradiction|].
  cbn [and_then]. unfold getitem. now rewrite El.
Qed.

(** An initialization with --version v2 and product [c]. *)
Lemma init_version_is_bound_witness :
  exists s entry,
    resolve Sample.forwards More.init_v2 = Go s
    /\ cur_version s = "v2"
    /\ bind_version More.init_v2 s = Go ("v2", entry).
Proof.
  destruct (init_version_is_bound Sample.forwards More.init_v2 _ "v2"
              eq_refl eq_refl eq_refl eq_refl) as (Hv & Hbind).
  destruct (Hbind ltac:(discriminate)) as (entry & _ & H).
  eexists. exists entry. split; [reflexivity|]. split; [exact Hv | exact H].
Defined.

(** ** The build directory of a later run *)

Lemma resolve_from_build_dir (rt : Runtime) (i : input) :
  resolve rt i
  = and_then (before_build_dir rt i)
             (fun s => and_then (take_build_dir i s) require_selection).
Proof.
  unfold resolve, before_build_dir.
  destruct (read_cache i) as [u| |]; [|reflexivity ..]. cbn [and_then].
  destruct (take_products rt i (start i)) as [s1| |]; [|reflexivity ..].
  cbn [and_then].
  destruct (take_mode i s1) as [s2| |]; [|reflexivity ..]. cbn [and_then].
  destruct (take_site i s2) as [s3| |]; [|reflexivity ..]. cbn [and_then].
  destruct (take_version i s3) as [s4| |]; reflexivity.
Qed.

(** X13. In a later run (no --init, no --list) that gets as far as line
    223, a non-empty --build-dir ends the run with the error about the
    build directory and exit code 1, and nothing is written, also when it
    names the build directory the run already has. *)
Theorem build_dir_immutable_after_init :
  forall (rt : Runtime) (i : input) (s : selection) (d : string),
    init (sys i) = false ->
    arg_list (args (sys i)) = false ->
    before_build_dir rt i = Go s ->
    arg_build_dir (args (sys i)) = Some d ->
    Py.truthy d = true ->
    configure rt i
    = {| status := Return 1;
         stdout := [ build_dir_immutable d ];
         written := [] |}.
Proof.
  intros rt i s d Hinit Hlist Hbefore Harg Ht.
  apply configure_Stop; [assumption|].
  unfold checked. rewrite resolve_from_build_dir, Hbefore. cbn [and_then].
  unfold take_build_dir. rewrite Harg, Ht, Hinit. reflexivity.
Qed.

(** A later run with --build-dir. *)
Lemma build_dir_immutable_after_init_witness :
  status (configure Sample.forwards More.move_build_dir) = Return 1
  /\ written (configure Sample.forwards More.move_build_dir) = [].
Proof.
  rewrite (build_dir_immutable_after_init Sample.forwards More.move_build_dir
             _ "elsewhere" eq_refl eq_refl eq_refl eq_refl eq_refl).
  split; reflexivity.
Defined.


(** ** The catalogs *)

(** X14. A catalog has one row for each key of the dict, in increasing
    order of the keys, and after them one row for each extra entry; a row
    is starred exactly when its name is current, and the rows of the extras
    have no description. *)
Theorem catalog_rows :
  forall (V : Type) (description : V -> option string) (items : Py.dict V)
         (is_current : string -> bool) (extra : list string),
    exists rows extra_rows,
      print_items description items is_current extra
      = Table (rows ++ extra_rows)
      /\ map row_name rows = Py.sorted (Py.keys items)
      /\ Permutation (map row_name rows) (Py.keys items)
      /\ StronglySorted str_le (map row_name rows)
      /\ map row_name extra_rows = extra
      /\ (forall row, In row extra_rows -> row_description row = EmptyString)
      /\ (forall row, In row (rows ++ extra_rows) ->
                      (row_mark row = " *"
                       <-> is_current (row_name row) = true)).
Proof.
  intros V description items is_current extra.
  eexists. eexists. split; [reflexivity|].
  assert (forall (f : string -> string) (xs : list string),
             map row_name (map (fun x => (get_current is_current x, x, f x)) xs)
             = xs) as Hnames
    by (intros f xs; rewrite map_map; apply map_id).
  rewrite !Hnames.
  split; [reflexivity|]. split; [apply PyFacts.sorted_perm|].
  split; [apply PyFacts.sorted_sorted|]. split; [reflexivity|].
  split.
  - intros row. rewrite in_map_iff. now intros (e & <- & _).
  - intros row. rewrite in_app_iff, !in_map_iff.
    intros [(x & <- & _)|(x & <- & _)]; unfold row_mark, row_name,
      get_current; simpl; destruct (is_current x); split; congruence.
Qed.

(** ** BBMULTICONFIG *)

Lemma declared_multiconfigs_all (cf : config) (ps : list string) :
  (forall p, In p ps -> declared (products cf) p) ->
  declared_multiconfigs cf ps
  = (EmptyString, inr (flat_map (multiconfigs_of cf) ps)).
Proof.
  induction ps as [|p ps IH]; intros Hall; [reflexivity|].
  cbn [declared_multiconfigs flat_map]. unfold w_getitem, multiconfigs_of at 1.
  destruct (PyFacts.lookup_None p (products cf)) as [Hnone _].
  destruct (Py.lookup p (products cf)) as [pr|] eqn:Ep.
  - rewrite IH by (intros; apply Hall; now right). reflexivity.
  - exfalso. apply (Hnone eq_refl). apply Hall. now left.
Qed.

(** X15. With every active product declared, lines 410-412 write nothing
    and raise nothing, and the names of BBMULTICONFIG are product-p for
    every active product p together with the multiconfigs the active
    products declare: each once, in increasing order. *)
Theorem bbmulticonfig_names :
  forall (rt : Runtime) (cf : config) (s : selection),
    (forall p, In p (cur_products s) -> declared (products cf) p) ->
    declared_multiconfigs cf (cur_products s)
    = (EmptyString,
       inr (flat_map (multiconfigs_of cf) (cur_products s)))
    /\ (forall m,
           In m (multiconfigs rt s
                   (flat_map (multiconfigs_of cf) (cur_products s)))
           <-> exists p, In p (cur_products s)
                         /\ (m = "product-" ++ p
                             \/ In m (multiconfigs_of cf p)))
    /\ StronglySorted str_lt
         (multiconfigs rt s
            (flat_map (multiconfigs_of cf) (cur_products s))).
Proof.
  intros rt cf s Hall.
  split; [now apply declared_multiconfigs_all|].
  unfold multiconfigs. rewrite PyFacts.sorted_set_iter. split.
  - intros m. split.
    + intros Hm.
      apply (Permutation_in _ (PyFacts.sorted_perm _)) in Hm.
      apply PyFacts.distinct_In, in_app_or in Hm as [Hm|Hm].
      * apply in_map_iff in Hm as (p & <- & Hp). eauto.
      * apply in_flat_map in Hm as (p & Hp & Hm). eauto.
    + intros (p & Hp & Hm).
      apply (Permutation_in _ (Permutation_sym (PyFacts.sorted_perm _))).
      apply PyFacts.distinct_In, in_or_app.
      destruct Hm as [->|Hm].
      * left. apply in_map_iff. eauto.
      * right. apply in_flat_map. eauto.
  - apply PyFacts.sorted_strict; [|apply PyFacts.sorted_sorted].
    eapply Permutation_NoDup;
      [apply Permutation_sym, PyFacts.sorted_perm | apply PyFacts.distinct_NoDup].
Qed.

(** The active products [a] and [b] of the sample document. *)
Lemma bbmulticonfig_names_witness :
  exists s,
    resolve Sample.forwards Sample.init_a_b = Go s
    /\ multiconfigs Sample.backwards s
         (flat_map (multiconfigs_of Sample.doc) (cur_products s))
       = ["product-a"; "product-b"]
    /\ StronglySorted str_lt
         (multiconfigs Sample.backwards s
            (flat_map (multiconfigs_of Sample.doc) (cur_products s))).
Proof.
  eexists. split; [reflexivity|]. split; [reflexivity|].
  refine (proj2 (proj2 (bbmulticonfig_names Sample.backwards Sample.doc _ _))).
  intros p [<-|[<-|[]]]; unfold declared; simpl; tauto.
Defined.


(** ** A selection that lacks something *)

Lemma resolve_from_selected (rt : Runtime) (i : input) :
  resolve rt i = and_then (selected rt i) require_selection.
Proof.
  rewrite resolve_from_build_dir. unfold selected.
  now destruct (before_build_dir rt i).
Qed.

(** X16. Once the arguments are taken (line 232), a run without --list
    that has no product returns 1 with the error about the products; with
    products but without a mode (none, or an empty one) it returns 1 with
    the error about the mode; with both but without a site, with the error
    about the site. Nothing is written in any of these cases. *)
Theorem missing_selection_in_order :
  forall (rt : Runtime) (i : input) (s : selection),
    arg_list (args (sys i)) = false ->
    selected rt i = Go s ->
    (cur_products s = [] ->
     configure rt i
     = {| status := Return 1;
          stdout :=
            [ Line "One or more products must be specified with --product" ];
          written := [] |})
    /\ (cur_products s <> [] -> Py.truthy_opt (cur_mode s) = false ->
        configure rt i
        = {| status := Return 1;
             stdout := [ Line "A build mode must be specified with --mode" ];
             written := [] |})
    /\ (cur_products s <> [] -> Py.truthy_opt (cur_mode s) = true ->
        Py.truthy_opt (cur_site s) = false ->
        configure rt i
        = {| status := Return 1;
             stdout := [ Line "A site must be specified with --site" ];
             written := [] |}).
Proof.
  intros rt i s Hlist Hsel.
  assert (forall messages,
             require_selection s = Stop messages ->
             configure rt i
             = {| status := Return 1; stdout := messages; written := [] |})
    as Hstop.
  { intros messages H. apply configure_Stop; [assumption|].
    unfold checked. rewrite resolve_from_selected, Hsel. cbn [and_then].
    now rewrite H. }
  repeat split.
  - intros Hps. apply Hstop. unfold require_selection. now rewrite Hps.
  - intros Hps Hmode. apply Hstop. unfold require_selection.
    destruct (cur_products s); [contradiction|]. now rewrite Hmode.
  - intros Hps Hmode Hsite. apply Hstop. unfold require_selection.
    destruct (cur_products s); [contradiction|]. now rewrite Hmode, Hsite.
Qed.

(** A first run without arguments, cache or defaults. *)
Lemma missing_selection_in_order_witness :
  exists s,
    selected Sample.forwards Blank.first_run = Go s
    /\ cur_products s = []
    /\ status (configure Sample.forwards Blank.first_run) = Return 1.
Proof.
  eexists. split; [reflexivity|]. split; [reflexivity|].
  rewrite (proj1 (missing_selection_in_order Sample.forwards Blank.first_run
                    _ eq_refl eq_refl) eq_refl).
  reflexivity.
Defined.

Lemma and_then_Escape {A B : Type} (m : step A) (k : A -> step B) (e : exn) :
  and_then m k = Escape e ->
  m = Escape e \/ exists a, m = Go a /\ k a = Escape e.
Proof.
  destruct m as [a| |]; simpl; intros H; try discriminate.
  - right. exists a. split; [reflexivity | exact H].
  - left. now injection H as ->.
Qed.

(** Once the cache has loaded, no exception escapes from lines 176-242. *)
Lemma resolve_never_escapes (rt : Runtime) (i : input) (e : exn) :
  cache_loads i -> resolve rt i <> Escape e.
Proof.
  unfold resolve. intros Hloads H.
  rewrite (read_cache_loads i Hloads) in H. cbn [and_then] in H.
  apply and_then_Escape in H as [H|(s1 & _ & H)];
    [unfold take_products in H; step_cases H|].
  apply and_then_Escape in H as [H|(s2 & _ & H)];
    [unfold take_mode in H; step_cases H|].
  apply and_then_Escape in H as [H|(s3 & _ & H)];
    [unfold take_site in H; step_cases H|].
  apply and_then_Escape in H as [H|(s4 & _ & H)];
    [unfold take_version in H; step_cases H|].
  apply and_then_Escape in H as [H|(s5 & _ & H)];
    [unfold take_build_dir in H; step_cases H|].
  unfold require_selection in H; step_cases H.
Qed.

(** X17. A run without --list, with a cache that loads (or --no-config),
    that is given --products without a single word in its values (empty or
    blank values) returns 1 and writes nothing: the products of the cache
    and of the defaults are dropped, not kept. *)
Theorem blank_products_select_nothing :
  forall (rt : Runtime) (i : input),
    arg_list (args (sys i)) = false ->
    cache_loads i ->
    arg_products (args (sys i)) <> [] ->
    (forall a, In a (arg_products (args (sys i))) -> Py.split a = []) ->
    user_products rt (arg_products (args (sys i))) = []
    /\ status (configure rt i) = Return 1
    /\ written (configure rt i) = [].
Proof.
  intros rt i Hlist Hloads Hflags Hblank.
  assert (user_products rt (arg_products (args (sys i))) = []) as Hnone.
  { destruct (user_products rt (arg_products (args (sys i)))) as [|p ps] eqn:E;
      [reflexivity|].
    assert (In p (user_products rt (arg_products (args (sys i))))) as Hp
      by (rewrite E; now left).
    apply user_products_In in Hp as (a & Ha & Hin).
    rewrite (Hblank a Ha) in Hin. contradiction. }
  split; [exact Hnone|].
  destruct (resolve rt i) as [s|messages|e] eqn:Hres.
  - exfalso. pose proof (resolve_products rt i s Hres Hflags) as Hps.
    apply resolve_Go in Hres as (_ & _ & _ & _ & _ & _ & _ & _ & _ & Hreq).
    apply require_selection_Go in Hreq as (_ & Hne & _). congruence.
  - rewrite (configure_Stop rt i messages Hlist);
      [now split | unfold checked; now rewrite Hres].
  - now apply resolve_never_escapes in Hres.
Qed.

(** A later run with --products "  " on the cache of an initialization. *)
Lemma blank_products_select_nothing_witness :
  cur_products (start Blank.products) = ["a"]
  /\ status (configure Sample.forwards Blank.products) = Return 1.
Proof.
  split; [reflexivity|].
  refine (proj1 (proj2 (blank_products_select_nothing Sample.forwards
                          Blank.products eq_refl ltac:(right; discriminate)
                          ltac:(discriminate) _))).
  intros a [<-|[]]. reflexivity.
Defined.


(** ** A run that writes the build directory to its end *)

Lemma w_for_write_each {A : Type} (g : A -> string) (xs : list A) :
  w_for xs (fun x => f_write (g x))
  = (String.concat EmptyString (map g xs), inr tt).
Proof.
  induction xs as [|x xs IH].
  - reflexivity.
  - cbn [w_for map]. rewrite IH, concat_cons. reflexivity.
Qed.

Lemma site_conf_done (rt : Runtime) (cf : config) (s : selection)
    (site mode : string) (es em : option_entry) :
  cur_site s = Some site -> Py.lookup site (sites cf) = Some es ->
  cur_mode s = Some mode -> Py.lookup mode (modes cf) = Some em ->
  (forall p, In p (cur_products s) -> declared (products cf) p) ->
  snd (site_conf rt cf s) = inr tt.
Proof.
  intros Hsite Hes Hmode Hem Hall. unfold site_conf, w_getitem.
  rewrite Hsite, Hes, Hmode, Hem, w_for_write_each,
          declared_multiconfigs_all by assumption.
  reflexivity.
Qed.

(** X18. A run without --list that passes its checks and writes the build
    directory goes to its end and returns 0 as soon as its site and its
    mode are in the document (and, should a product be called core, that
    product is declared): it writes the environment file, the cache unless
    --no-config is given, the directory, site.conf, one file for each
    declared product and bblayers.conf, in this order. An initialization
    then prints the selection unless --quiet is given; a later run prints
    nothing. *)
Theorem writing_run_succeeds :
  forall (rt : Runtime) (i : input) (s : selection) (actual : string)
         (v : version) (site mode : string) (es em : option_entry),
    arg_list (args (sys i)) = false ->
    checked rt i = Go (s, (actual, v)) ->
    write s = true ->
    cur_site s = Some site -> Py.lookup site (sites (conf i)) = Some es ->
    cur_mode s = Some mode -> Py.lookup mode (modes (conf i)) = Some em ->
    (In "core" (cur_products s) -> declared (products (conf i)) "core") ->
    configure rt i
    = {| status := Return 0;
         stdout := if init (sys i)
                   then (if arg_quiet (args (sys i)) then []
                         else summary s actual)
                   else [];
         written :=
           (EnvFile (env (sys i)) (wrote (env_file rt i s actual v))
            :: (if arg_no_config (args (sys i)) then []
                else [CacheFile (cache_path rt i) (new_cache rt s actual)])
            ++ [ MkDir (multiconfig_dir rt s);
                 BuildFile (conf_path rt s "site.conf")
                           (wrote (site_conf rt (conf i) s)) ]
            ++ product_files rt (conf i) s
            ++ [ BuildFile (conf_path rt s "bblayers.conf")
                           (wrote (bblayers_conf rt (conf i) s v)) ])%list |}.
Proof.
  intros rt i s actual v site mode es em Hlist Hchecked Hwrite Hsite Hes
         Hmode Hem Hcore.
  pose proof (checked_Go rt i s (actual, v) Hchecked) as (_ & _ & Hcheck).
  cbn [fst snd] in Hcheck.
  pose proof (check_layers_declared _ _ _ _ _ Hcheck) as Hdecl.
  assert (forall p, In p (cur_products s) -> declared (products (conf i)) p)
    as Hall.
  { intros p Hp. destruct (String.eqb_spec p "core") as [->|Hne];
      [now apply Hcore|].
    specialize (Hdecl p (or_intror Hp)). unfold get_product_layers in Hdecl.
    destruct (String.eqb_spec p "core"); [contradiction|].
    unfold declared.
    destruct (in_dec string_dec p (Py.keys (products (conf i))))
      as [Hin|Hnot]; [exact Hin|].
    apply PyFacts.lookup_None in Hnot. rewrite Hnot in Hdecl.
    now contradiction Hdecl. }
  pose proof (site_conf_done rt (conf i) s site mode es em Hsite Hes Hmode
                Hem Hall) as Hsc.
  assert (snd (bblayers_conf rt (conf i) s v) = inr tt) as Hbb
    by (now rewrite (bblayers_conf_text rt (conf i) s v Hdecl)).
  unfold configure, emit, build_files, to_file.
  rewrite Hlist, Hchecked, Hwrite, env_file_done.
  destruct (site_conf rt (conf i) s) as [sc [e|[]]]; [discriminate Hsc|].
  destruct (bblayers_conf rt (conf i) s v) as [bb [e|[]]];
    [discriminate Hbb|].
  destruct (arg_no_config (args (sys i))), (init (sys i)); reflexivity.
Qed.

(** An initialization with products [a] and [b]. *)
Lemma writing_run_succeeds_witness :
  status (configure Sample.forwards Sample.init_a_b) = Return 0
  /\ List.length (written (configure Sample.forwards Sample.init_a_b)) = 8.
Proof.
  rewrite (writing_run_succeeds Sample.forwards Sample.init_a_b _ "v1" _
             "home" "debug" _ _ eq_refl eq_refl eq_refl eq_refl eq_refl
             eq_refl eq_refl).
  - split; reflexivity.
  - simpl. intuition discriminate.
Defined.


(** ** Names of the cache the document has lost *)

(** X19. The products and the version a run takes from the cache or from
    the defaults are not checked by lines 176-242. In a run without --list
    that gets through these lines, a first active product the document does
    not declare makes the [KeyError] of line 250 escape when the version is
    "default", and a bound version the document does not declare makes the
    one of line 263 escape; in both cases nothing is printed and nothing is
    written. *)
Theorem lost_product_or_version_raises :
  forall (rt : Runtime) (i : input) (s : selection),
    arg_list (args (sys i)) = false ->
    resolve rt i = Go s ->
    (forall p post,
        cur_version s = "default" ->
        cur_products s = p :: post ->
        Py.lookup p (products (conf i)) = None ->
        configure rt i
        = {| status := Raise (KeyError (Some p));
             stdout := [];
             written := [] |})
    /\ (forall a,
           actual_version i s = Go (Some a) ->
           Py.lookup a (versions (conf i)) = None ->
           configure rt i
           = {| status := Raise (KeyError (Some a));
                stdout := [];
                written := [] |}).
Proof.
  intros rt i s Hlist Hres.
  assert (forall e, bind_version i s = Escape e ->
                    configure rt i
                    = {| status := Raise e; stdout := []; written := [] |})
    as Hescape.
  { intros e H. unfold configure, checked.
    rewrite Hlist, Hres. cbn [and_then]. now rewrite H. }
  split.
  - intros p post Hdef Hps Hnone. apply Hescape.
    unfold bind_version, actual_version. rewrite Hdef, Hps.
    cbn [String.eqb Ascii.eqb Bool.eqb default_versions].
    unfold getitem. now rewrite Hnone.
  - intros a Ha Hnone. apply Hescape.
    unfold bind_version. rewrite Ha. cbn [and_then].
    unfold getitem. now rewrite Hnone.
Qed.

(** A later run whose cache names the product [gone]. *)
Lemma lost_product_or_version_raises_witness :
  exists s,
    resolve Sample.forwards Blank.stale_product = Go s
    /\ cur_products s = ["gone"]
    /\ status (configure Sample.forwards Blank.stale_product)
       = Raise (KeyError (Some "gone")).
Proof.
  eexists. split; [reflexivity|]. split; [reflexivity|].
  rewrite (proj1 (lost_product_or_version_raises Sample.forwards
                    Blank.stale_product _ eq_refl eq_refl)
             "gone" [] eq_refl eq_refl eq_refl).
  reflexivity.
Defined.
